(** * Drake core: the vector concept and combined vectors

    A shallow embedding of [drake/core/Core.h].  The header is a piece of
    C++ template code, so the embedding has two layers:

    - the _type level_: a class that models the vector concept is a record
      [Vector S] (its static constant [RowsAtCompileTime], its object type
      and the operations the concept table asks for); a template template
      parameter [template <typename> class V] is a function from scalar
      types to such records; the choice of a class template specialisation
      guarded by [std::enable_if] is a function returning an
      [Instantiation];
    - the _value level_: objects of [Eigen::Matrix<S,Rows,1>] are lists of
      coefficients of the right length, objects of [CombinedVector] are
      the pair of their two private members. *)

From Stdlib Require Import ZArith List Bool Lia String Eqdep_dec.
From Stdlib Require Import DecimalString DecimalN.
Import ListNotations.
Open Scope string_scope.
Open Scope list_scope.
Open Scope Z_scope.

Module Drake.

(** ** Machine integers

    [std::size_t] and [Eigen::Index] on an LP64 target: 64 bits, the first
    unsigned and the second signed.  A conversion to either wraps. *)

Definition size_t_bits : Z := 64.

Definition to_size_t (z : Z) : Z := z mod 2 ^ size_t_bits.

Definition to_Index (z : Z) : Z :=
  let u := z mod 2 ^ size_t_bits in
  if u <? 2 ^ (size_t_bits - 1) then u else u - 2 ^ size_t_bits.

(** [Eigen::Dynamic]; [size] below compares against the literal [-1]. *)
Definition Dynamic : Z := -1.

(** The C++ comparison [r == -1] of a row count with the literal [-1].  A
    row count is an [int] (or an enumerator with the range of an [int]),
    except for the enumerator of [CombinedVector], which is computed in
    [std::size_t]: when its value does not fit an [int] its type is
    [unsigned int] below [2 ^ 32] and a 64-bit unsigned type from there
    on.  The usual arithmetic conversions turn the literal into
    [2 ^ 32 - 1] for the first and into [2 ^ 64 - 1] for the second.  (No
    such care is needed for [r == 0]: a row count compares equal to [0]
    only if it is 0.) *)
Definition equals_minus_one (r : Z) : bool :=
  (r =? -1) || (r =? 2 ^ 32 - 1) || (r =? 2 ^ 64 - 1).

(** ** Programs that do not compile

    An instantiation of a function template of the header either gives a
    function, or fails its [static_assert], or is ill-formed for another
    reason (a narrowing conversion in a template argument, a call of a
    non-const member function on a const object). *)

Inductive Compiled (T : Type) : Type :=
| Ok (t : T)
| static_assert_failed (message : string)
| ill_formed.

Arguments Ok {T} t.
Arguments static_assert_failed {T} message.
Arguments ill_formed {T}.

(** ** Scalars

    [double] is an IEEE-754 binary64 number, kept as its bit pattern: the
    header moves coefficients around and never computes with them. *)

Record double : Set := binary64 { bits : Z }.

(** ** The vector concept

    The "valid expressions" of the concept table, for one scalar type:
    [RowsAtCompileTime], [size()], the constructor and the assignment
    operator taking an Eigen object, and the non-member [toEigen].  An Eigen
    object (the value of a dense column-vector expression) is the list of
    its coefficients.  Construction and assignment return [None] where
    Eigen's size assertion fails.  [size_const] tells whether [size()] is
    a const member function, as the generic [size] below needs it. *)

Record Vector (ScalarType : Type) : Type := {
  Obj : Type;
  RowsAtCompileTime : Z;
  size_m : Obj -> Z;
  size_const : bool;
  from_eigen : list ScalarType -> option Obj;
  assign_eigen : Obj -> list ScalarType -> option Obj;
  toEigen : Obj -> list ScalarType
}.

Arguments Obj {ScalarType} _.
Arguments RowsAtCompileTime {ScalarType} _.
Arguments size_m {ScalarType} _ _.
Arguments size_const {ScalarType} _.
Arguments from_eigen {ScalarType} _ _.
Arguments assign_eigen {ScalarType} _ _ _.
Arguments toEigen {ScalarType} _ _.

(** [template <typename> class V]: a vector type constructor. *)
Definition Template : Type := forall ScalarType : Type, Vector ScalarType.

(** ** Eigen column vectors

    [Eigen::Matrix<S,Rows,1>] holds exactly [Rows] coefficients, or any
    number of them when [Rows] is [Dynamic]. *)

Definition rows (S : Type) (x : list S) : Z := Z.of_nat (List.length x).

Arguments rows {S} x.

Definition fits (S : Type) (Rows : Z) (x : list S) : bool :=
  (Rows =? Dynamic) || (rows x =? Rows).

Arguments fits {S} Rows x.

Definition MatrixObj (S : Type) (Rows : Z) : Type :=
  { coeffs : list S | fits Rows coeffs = true }.

(** Construction of a matrix from a dense expression: sizes must agree. *)
Definition Matrix_from (S : Type) (Rows : Z) (x : list S)
  : option (MatrixObj S Rows) :=
  match bool_dec (fits Rows x) true with
  | left ok => Some (exist _ x ok)
  | right _ => None
  end.

(** [toEigen] of line 44: an Eigen column vector is its own dense form. *)
Definition Matrix_toEigen (S : Type) (Rows : Z) (vec : MatrixObj S Rows)
  : list S := proj1_sig vec.

Definition Matrix (S : Type) (Rows : Z) : Vector S := {|
  Obj := MatrixObj S Rows;
  RowsAtCompileTime := Rows;
  size_m := fun vec => rows (proj1_sig vec);
  size_const := true;
  from_eigen := Matrix_from S Rows;
  assign_eigen := fun _ x => Matrix_from S Rows x;
  toEigen := Matrix_toEigen S Rows
|}.

(** [EigenVector<Rows>::type] and [NullVector]. *)
Definition EigenVector (Rows : Z) : Template := fun S => Matrix S Rows.

Definition NullVector : Template := fun S => Matrix S 0.

(** ** Dense-expression primitives used by the header

    [x.topRows(n)] and [x.bottomRows(n)] take an [Index]; the block must lie
    inside [x].  [x << a, b] stacks its operands. *)

Definition topRows (S : Type) (x : list S) (n : Z) : option (list S) :=
  if (0 <=? n) && (n <=? rows x) then Some (firstn (Z.to_nat n) x) else None.

Definition bottomRows (S : Type) (x : list S) (n : Z) : option (list S) :=
  if (0 <=? n) && (n <=? rows x)
  then Some (skipn (Z.to_nat (rows x - n)) x) else None.

Arguments topRows {S} x n.
Arguments bottomRows {S} x n.

(** [x <- e ;; k]: the rest of a constructor runs only if the member
    initialiser before it did not fail. *)
Notation "x <- e ;; k" :=
  (match e with Some x => k | None => None end)
  (at level 61, e at next level, right associativity).

(** ** CombinedVector<ScalarType,Vector1,Vector2>

    The class of lines 100-142.  An object is its two private members. *)

Module CombinedVector.
Section Class.
Context (ScalarType : Type) (Vector1 Vector2 : Template).

(** [const static size_t vec1_rows = Vector1<ScalarType>::RowsAtCompileTime]:
    the row counts are converted to [std::size_t]. *)
Definition vec1_rows : Z :=
  to_size_t (RowsAtCompileTime (Vector1 ScalarType)).
Definition vec2_rows : Z :=
  to_size_t (RowsAtCompileTime (Vector2 ScalarType)).

(** The two-argument constructor of line 106 is [mk]. *)
Record t : Type := mk {
  vec1 : Obj (Vector1 ScalarType);
  vec2 : Obj (Vector2 ScalarType)
}.

Definition first (c : t) : Obj (Vector1 ScalarType) := vec1 c.
Definition second (c : t) : Obj (Vector2 ScalarType) := vec2 c.

(** [enum { RowsAtCompileTime = vec1_rows + vec2_rows }]: an addition of
    two [std::size_t]. *)
Definition RowsAtCompileTime : Z := to_size_t (vec1_rows + vec2_rows).

(** [std::size_t size() { return vec1.size()+vec2.size(); }]: not a const
    member function. *)
Definition size (c : t) : Z :=
  to_size_t (size_m (Vector1 ScalarType) (vec1 c)
             + size_m (Vector2 ScalarType) (vec2 c)).

(** Line 108: [vec1(x.topRows(vec1_rows)), vec2(x.bottomRows(vec2_rows))].
    The [std::size_t] counts are passed where Eigen takes an [Index]. *)
Definition from_MatrixBase (x : list ScalarType) : option t :=
  x1 <- topRows x (to_Index vec1_rows) ;;
  a <- from_eigen (Vector1 ScalarType) x1 ;;
  x2 <- bottomRows x (to_Index vec2_rows) ;;
  b <- from_eigen (Vector2 ScalarType) x2 ;;
  Some (mk a b).

(** Line 109: one dense expression per member. *)
Definition from_MatrixBase2 (x1 x2 : list ScalarType) : option t :=
  a <- from_eigen (Vector1 ScalarType) x1 ;;
  b <- from_eigen (Vector2 ScalarType) x2 ;;
  Some (mk a b).

(** Lines 111-116: [operator=] assigns the same two blocks to the members. *)
Definition assign (c : t) (x : list ScalarType) : option t :=
  x1 <- topRows x (to_Index vec1_rows) ;;
  a <- assign_eigen (Vector1 ScalarType) (vec1 c) x1 ;;
  x2 <- bottomRows x (to_Index vec2_rows) ;;
  b <- assign_eigen (Vector2 ScalarType) (vec2 c) x2 ;;
  Some (mk a b).

(** The friend [toEigen] of lines 133-137.  Its result is declared with
    [Vector1<S>::RowsAtCompileTime + Vector2<S>::RowsAtCompileTime] rows,
    a sum of the member types' own constants (not of the [std::size_t]
    copies), and is filled by [x << toEigen(vec1), toEigen(vec2)].  The
    comma initialiser requires its operands to fill [x] exactly;
    [toEigen_fills] below shows that they do for fixed-size members.  With
    a dynamically sized member they do not, and the call fails: the
    definition gives the result of the calls that succeed, and the
    theorems on dense forms are stated for fixed-size members. *)
Definition toEigen_rows : Z :=
  Drake.RowsAtCompileTime (Vector1 ScalarType)
  + Drake.RowsAtCompileTime (Vector2 ScalarType).

Definition toEigen (vec : t) : list ScalarType :=
  Drake.toEigen (Vector1 ScalarType) (vec1 vec)
  ++ Drake.toEigen (Vector2 ScalarType) (vec2 vec).

(** The sum in the declaration of the friend is a constant expression
    used as an [int] template argument: the class can be instantiated only
    if the sum is an [int].  What this module says of the class is meant
    for such members. *)
Definition well_formed : Prop := - 2 ^ 31 <= toEigen_rows < 2 ^ 31.

(** The class as a model of the vector concept. *)
Definition type : Vector ScalarType := {|
  Obj := t;
  Drake.RowsAtCompileTime := RowsAtCompileTime;
  size_m := size;
  size_const := false;
  from_eigen := from_MatrixBase;
  assign_eigen := assign;
  Drake.toEigen := toEigen
|}.
End Class.

Arguments vec1 {ScalarType Vector1 Vector2} _.
Arguments vec2 {ScalarType Vector1 Vector2} _.
Arguments mk {ScalarType Vector1 Vector2} _ _.
Arguments first {ScalarType Vector1 Vector2} _.
Arguments second {ScalarType Vector1 Vector2} _.
End CombinedVector.

(** ** Class template specialisation

    [CombinedVectorBuilder] and [CombinedVectorUtil] each have a primary
    template and two partial specialisations whose last argument is
    [typename std::enable_if<cond>::type].  A specialisation matches the
    arguments [<Vector1,Vector2,void>] exactly when its condition is true
    (otherwise [enable_if] has no member [type] and deduction fails).  With
    no match the primary template is used; with one match, that
    specialisation.  With two, the one more specialised than the other
    would be used, but the specialisations have the same argument
    list up to the condition, which is not deduced, so neither is: the
    use of the class template is ambiguous and the program ill-formed
    (C++ standard, [temp.spec.partial.match]).  The order in which the
    specialisations are declared plays no part. *)

Inductive Instantiation (T : Type) : Type :=
| Selected (t : T)
| Ambiguous.

Arguments Selected {T} t.
Arguments Ambiguous {T}.

Definition inst_map (T U : Type) (f : T -> U) (i : Instantiation T)
  : Instantiation U :=
  match i with
  | Selected t => Selected (f t)
  | Ambiguous => Ambiguous
  end.

Arguments inst_map {T U} f i.

(** Which definition of a class template an instantiation uses. *)
Inductive Choice : Set :=
| Primary
| Specialization (n : nat).

Section Specialization.
(** The members of a definition of the class template may have types
    that depend on the two template template arguments. *)
Context {T : Template -> Template -> Type}.

Record PartialSpecialization : Type := {
  enable_if : Template -> Template -> bool;
  members : forall Vector1 Vector2 : Template, T Vector1 Vector2
}.

(** The specialisations whose condition holds, numbered from [n] in
    declaration order. *)
Fixpoint matching (n : nat) (specs : list PartialSpecialization)
    (Vector1 Vector2 : Template) : list (nat * T Vector1 Vector2) :=
  match specs with
  | [] => []
  | s :: specs' =>
      if enable_if s Vector1 Vector2
      then (n, members s Vector1 Vector2)
             :: matching (S n) specs' Vector1 Vector2
      else matching (S n) specs' Vector1 Vector2
  end.

Definition instantiate (primary : forall V1 V2 : Template, T V1 V2)
    (specs : list PartialSpecialization) (Vector1 Vector2 : Template)
  : Instantiation (Choice * T Vector1 Vector2) :=
  match matching 1 specs Vector1 Vector2 with
  | [] => Selected (Primary, primary Vector1 Vector2)
  | [(n, m)] => Selected (Specialization n, m)
  | _ => Ambiguous
  end.
End Specialization.

Arguments PartialSpecialization T : clear implicits.

(** ** CombinedVectorBuilder<Vector1,Vector2>::type<ScalarType>

    Lines 151-163.  The conditions read the row count of the [double]
    instance; a row count compares equal to the literal [0] only if it is
    0. *)

Module CombinedVectorBuilder.

(** [template <typename ScalarType> using type = ...] *)
Definition primary (Vector1 Vector2 : Template) : Template :=
  fun ScalarType => CombinedVector.type ScalarType Vector1 Vector2.

Definition specializations
  : list (PartialSpecialization (fun _ _ => Template)) :=
  [ {| enable_if := fun Vector1 Vector2 =>
         RowsAtCompileTime (Vector2 double) =? 0;
       members := fun Vector1 Vector2 => Vector1 |};
    {| enable_if := fun Vector1 Vector2 =>
         RowsAtCompileTime (Vector1 double) =? 0;
       members := fun Vector1 Vector2 => Vector2 |} ].

Definition instance (Vector1 Vector2 : Template)
  : Instantiation (Choice * Template) :=
  instantiate primary specializations Vector1 Vector2.

Definition choice (Vector1 Vector2 : Template) : Instantiation Choice :=
  inst_map fst (instance Vector1 Vector2).

(** The alias template [CombinedVectorBuilder<Vector1,Vector2>::type]. *)
Definition type (Vector1 Vector2 : Template) : Instantiation Template :=
  inst_map snd (instance Vector1 Vector2).

(** [CombinedVectorBuilder<Vector1,Vector2>::type<ScalarType>] *)
Definition type_at (Vector1 Vector2 : Template) (ScalarType : Type)
  : Instantiation (Vector ScalarType) :=
  inst_map (fun composed : Template => composed ScalarType)
           (type Vector1 Vector2).

End CombinedVectorBuilder.

(** ** CombinedVectorUtil<Vector1,Vector2>

    Lines 168-185.  Every member takes or returns a
    [CombinedVectorBuilder<Vector1,Vector2>::type<ScalarType>].  The body of
    each definition fixes what that type has to be for the body to be
    well-typed ([vec.first()] needs the class, [return vec;] as a
    [Vector1<ScalarType>] needs [Vector1<ScalarType>]); a definition is
    kept together with that type, [composed].  That it is the type the
    builder yields is a theorem, not part of the definition.

    Where a member returns [NullVector<ScalarType>()] as a
    [Vector1<ScalarType>] or [Vector2<ScalarType>], the empty Eigen vector
    goes through the constructor taking an Eigen object. *)

Module CombinedVectorUtil.

Record Members (Vector1 Vector2 composed : Template) : Type := {
  first : forall S : Type, Obj (composed S) -> option (Obj (Vector1 S));
  second : forall S : Type, Obj (composed S) -> option (Obj (Vector2 S));
  combine : forall S : Type,
      Obj (Vector1 S) -> Obj (Vector2 S) -> Obj (composed S)
}.

Arguments first {Vector1 Vector2 composed} _ S _.
Arguments second {Vector1 Vector2 composed} _ S _.
Arguments combine {Vector1 Vector2 composed} _ S _ _.

Definition t (Vector1 Vector2 : Template) : Type :=
  { composed : Template & Members Vector1 Vector2 composed }.

Definition primary (Vector1 Vector2 : Template) : t Vector1 Vector2 :=
  existT (Members Vector1 Vector2)
    (CombinedVectorBuilder.primary Vector1 Vector2)
    (Build_Members Vector1 Vector2
       (CombinedVectorBuilder.primary Vector1 Vector2)
       (fun S vec => Some (CombinedVector.first vec))
       (fun S vec => Some (CombinedVector.second vec))
       (fun S vec1 vec2 => CombinedVector.mk vec1 vec2)).

(** The specialisation for [Vector2<double>::RowsAtCompileTime==0]. *)
Definition Vector2_null (Vector1 Vector2 : Template) : t Vector1 Vector2 :=
  existT (Members Vector1 Vector2) Vector1
    (Build_Members Vector1 Vector2 Vector1
       (fun S vec => Some vec)
       (fun S vec => from_eigen (Vector2 S) [])
       (fun S vec1 vec2 => vec1)).

(** The specialisation for [Vector1<double>::RowsAtCompileTime==0]. *)
Definition Vector1_null (Vector1 Vector2 : Template) : t Vector1 Vector2 :=
  existT (Members Vector1 Vector2) Vector2
    (Build_Members Vector1 Vector2 Vector2
       (fun S vec => from_eigen (Vector1 S) [])
       (fun S vec => Some vec)
       (fun S vec1 vec2 => vec2)).

Definition specializations : list (PartialSpecialization t) :=
  [ {| enable_if := fun Vector1 Vector2 =>
         RowsAtCompileTime (Vector2 double) =? 0;
       members := Vector2_null |};
    {| enable_if := fun Vector1 Vector2 =>
         RowsAtCompileTime (Vector1 double) =? 0;
       members := Vector1_null |} ].

Definition instance (Vector1 Vector2 : Template)
  : Instantiation (Choice * t Vector1 Vector2) :=
  instantiate primary specializations Vector1 Vector2.

Definition choice (Vector1 Vector2 : Template) : Instantiation Choice :=
  inst_map fst (instance Vector1 Vector2).

Definition util (Vector1 Vector2 : Template)
  : Instantiation (t Vector1 Vector2) :=
  inst_map snd (instance Vector1 Vector2).

(** The type the members of a definition work on. *)
Definition composed_type (Vector1 Vector2 : Template)
    (u : t Vector1 Vector2) : Template := projT1 u.

End CombinedVectorUtil.

(** ** size()

    Lines 57-74.  [SizeDispatch] is specialised on its [bool] argument, which
    [size] sets to [VecType::RowsAtCompileTime==-1].  Both definitions
    return a [std::size_t].  The one for [true] calls [vec.size()] on a
    reference to a const vector: it is ill-formed when [size()] is not a
    const member function. *)

Module internal.
Definition SizeDispatch_eval (S : Type) (VecType : Vector S)
    (Enable : bool) (vec : Obj VecType) : Compiled Z :=
  if Enable
  then if size_const VecType
       then Ok (to_size_t (size_m VecType vec))
       else ill_formed
  else Ok (to_size_t (RowsAtCompileTime VecType)).

Arguments SizeDispatch_eval {S} VecType Enable vec.
End internal.

Definition size (S : Type) (VecType : Vector S) (vec : Obj VecType)
  : Compiled Z :=
  internal.SizeDispatch_eval VecType
    (equals_minus_one (RowsAtCompileTime VecType)) vec.

Arguments size {S} VecType vec.

(** ** getRandomVector()

    Lines 50-55.  The [static_assert] is checked when the function template
    is instantiated.  Line 53 then uses the row count as the [int]
    template argument [Rows] of [Eigen::Matrix]: a row count that does not
    fit an [int] is a narrowing conversion there.  [Eigen::Matrix<double,Rows,1>::Random()] draws [Rows]
    coefficients; the generator is a parameter, [rnd i] being the [i]-th
    number it hands out. *)

Definition Random (rnd : nat -> double) (Rows : Z) : list double :=
  map rnd (seq 0 (Z.to_nat Rows)).

Definition getRandomVector (VecType : Template) (rnd : nat -> double)
  : Compiled (option (Obj (VecType double))) :=
  if RowsAtCompileTime (VecType double) >=? 0
  then if RowsAtCompileTime (VecType double) <? 2 ^ 31
       then Ok (from_eigen (VecType double)
                  (Random rnd (RowsAtCompileTime (VecType double))))
       else ill_formed
  else static_assert_failed "still need to handle dynamic case".

(** ** Fixed-size models of the concept

    What the concept table promises of a class with a static row count:
    the count is an [int] that is not negative; [toEigen] returns an
    [Eigen::Matrix<ScalarType,RowsAtCompileTime,1>]; [size()], where the
    class has it, is the row count; an Eigen object with that many rows can
    be given to the constructor and to the assignment operator, and is what
    [toEigen] then returns. *)

Class FixedSize (S : Type) (V : Vector S) : Prop := {
  rows_static : 0 <= RowsAtCompileTime V < 2 ^ 31;
  toEigen_rows : forall v : Obj V, rows (toEigen V v) = RowsAtCompileTime V;
  size_rows : forall v : Obj V, size_m V v = RowsAtCompileTime V;
  from_eigen_defined : forall x : list S,
      rows x = RowsAtCompileTime V ->
      exists v, from_eigen V x = Some v /\ toEigen V v = x;
  assign_eigen_defined : forall (v0 : Obj V) (x : list S),
      rows x = RowsAtCompileTime V ->
      exists v, assign_eigen V v0 x = Some v /\ toEigen V v = x
}.

Arguments FixedSize {S} V.

(** A zero-row operand is handed back by the util as a converted
    [NullVector<ScalarType>()]; the conversion has to exist. *)
Definition null_convertible (V : Template) : Prop :=
  RowsAtCompileTime (V double) = 0 ->
  forall S : Type, exists v : Obj (V S), from_eigen (V S) [] = Some v.

(** ** Sample objects *)

Definition vector3 (S : Type) (a b c : S) : Obj (EigenVector 3 S) :=
  exist _ [a; b; c] eq_refl.

Definition vector2 (S : Type) (a b : S) : Obj (EigenVector 2 S) :=
  exist _ [a; b] eq_refl.

Definition nullVec (S : Type) : Obj (NullVector S) :=
  exist _ [] eq_refl.

(** A dynamically sized Eigen vector. *)
Definition vectorX (S : Type) (x : list S) : Obj (EigenVector Dynamic S) :=
  exist _ x eq_refl.

Arguments vector3 {S} a b c.
Arguments vector2 {S} a b.
Arguments vectorX {S} x.

(** The doubles 1.0, 2.0, 3.0, 4.0, 5.0, 7.0 and 8.0. *)
Definition d1 : double := binary64 0x3FF0000000000000.
Definition d2 : double := binary64 0x4000000000000000.
Definition d3 : double := binary64 0x4008000000000000.
Definition d4 : double := binary64 0x4010000000000000.
Definition d5 : double := binary64 0x4014000000000000.
Definition d7 : double := binary64 0x401C000000000000.
Definition d8 : double := binary64 0x4020000000000000.

(** ** getCoordinateName()

    Lines 80-81: ["x"+std::to_string(index)].  The parameter [index] is an
    [unsigned int], 32 bits wide, so an argument is converted to it on the
    call; [std::to_string] writes it in decimal, without leading zeros.
    The vector is not looked at. *)

Definition to_unsigned_int (z : Z) : Z := z mod 2 ^ 32.

Definition to_string (n : Z) : string :=
  NilEmpty.string_of_uint (N.to_uint (Z.to_N n)).

Definition getCoordinateName (S : Type) (VecType : Vector S)
    (vec : Obj VecType) (index : Z) : string :=
  String.append "x" (to_string (to_unsigned_int index)).

Arguments getCoordinateName {S} VecType vec index.

(** ** FunctionalForm

    Lines 188-195: four empty tag structs, each but the first publicly
    derived from the one before.  A tag object converts to another tag
    (and so selects an overload written for it) when the other is its own
    class or one of its bases. *)

Module FunctionalForm.

Inductive tag : Set := Arbitrary | Polynomial | Affine | Linear.

(** The base class in the definition of each struct. *)
Definition base (t : tag) : option tag :=
  match t with
  | Arbitrary => None
  | Polynomial => Some Arbitrary
  | Affine => Some Polynomial
  | Linear => Some Affine
  end.

(** Derived-to-base conversion: the reflexive and transitive closure of
    [base]. *)
Inductive converts : tag -> tag -> Prop :=
| converts_same (t : tag) : converts t t
| converts_base (d b b' : tag) :
    base d = Some b -> converts b b' -> converts d b'.

(** The number of classes a tag is derived from. *)
Fixpoint bases (fuel : nat) (t : tag) : nat :=
  match fuel with
  | O => O
  | S fuel' =>
      match base t with
      | None => O
      | Some b => S (bases fuel' b)
      end
  end.

Definition depth (t : tag) : nat := bases 4 t.

End FunctionalForm.

(** * Properties *)

(** ** Conversions *)

Lemma to_size_t_id (z : Z) : 0 <= z < 2 ^ 64 -> to_size_t z = z.
Proof.
  intros Hz. unfold to_size_t, size_t_bits. now apply Z.mod_small.
Qed.

Lemma to_size_t_range (z : Z) : 0 <= to_size_t z < 2 ^ 64.
Proof.
  unfold to_size_t, size_t_bits. apply Z.mod_pos_bound. lia.
Qed.

Lemma to_size_t_Dynamic : to_size_t Dynamic = 2 ^ 64 - 1.
Proof. reflexivity. Qed.

Lemma to_Index_id (z : Z) : 0 <= z < 2 ^ 63 -> to_Index z = z.
Proof.
  intros Hz. unfold to_Index, size_t_bits.
  rewrite Z.mod_small by lia.
  change (2 ^ (64 - 1)) with (2 ^ 63).
  destruct (z <? 2 ^ 63) eqn:E; [reflexivity | apply Z.ltb_ge in E; lia].
Qed.

(** A non-negative [int] survives the trip through [std::size_t] to
    [Index]. *)
Lemma to_Index_to_size_t (z : Z) :
  0 <= z < 2 ^ 31 -> to_Index (to_size_t z) = z.
Proof.
  intros Hz. rewrite to_size_t_id by lia. apply to_Index_id. lia.
Qed.

(** The dynamic sentinel comes back as [-1]: a block of [-1] rows. *)
Lemma to_Index_to_size_t_Dynamic : to_Index (to_size_t Dynamic) = -1.
Proof. reflexivity. Qed.

Lemma equals_minus_one_static (r : Z) :
  0 <= r < 2 ^ 31 -> equals_minus_one r = false.
Proof.
  intros Hr. unfold equals_minus_one.
  rewrite !orb_false_iff, !Z.eqb_neq. lia.
Qed.

(** ** Dense expressions *)

Lemma rows_app (S : Type) (x y : list S) : rows (x ++ y) = rows x + rows y.
Proof. unfold rows. rewrite length_app. lia. Qed.

Lemma rows_nonneg (S : Type) (x : list S) : 0 <= rows x.
Proof. unfold rows. lia. Qed.

Lemma topRows_rows (S : Type) (x x1 : list S) (n : Z) :
  topRows x n = Some x1 -> x1 = firstn (Z.to_nat n) x /\ rows x1 = n.
Proof.
  unfold topRows. destruct ((0 <=? n) && (n <=? rows x)) eqn:E; [|discriminate].
  intros [= <-]. apply andb_true_iff in E as [H0 H1].
  apply Z.leb_le in H0, H1. split; [reflexivity|].
  unfold rows in *. rewrite length_firstn. lia.
Qed.

Lemma bottomRows_rows (S : Type) (x x2 : list S) (n : Z) :
  bottomRows x n = Some x2 ->
  x2 = skipn (Z.to_nat (rows x - n)) x /\ rows x2 = n.
Proof.
  unfold bottomRows.
  destruct ((0 <=? n) && (n <=? rows x)) eqn:E; [|discriminate].
  intros [= <-]. apply andb_true_iff in E as [H0 H1].
  apply Z.leb_le in H0, H1. split; [reflexivity|].
  unfold rows in *. rewrite length_skipn. lia.
Qed.

Lemma topRows_defined (S : Type) (x : list S) (n : Z) :
  0 <= n <= rows x -> topRows x n = Some (firstn (Z.to_nat n) x).
Proof.
  intros [H0 H1]. unfold topRows.
  apply Z.leb_le in H0, H1. now rewrite H0, H1.
Qed.

Lemma bottomRows_defined (S : Type) (x : list S) (n : Z) :
  0 <= n <= rows x ->
  bottomRows x n = Some (skipn (Z.to_nat (rows x - n)) x).
Proof.
  intros [H0 H1]. unfold bottomRows.
  apply Z.leb_le in H0, H1. now rewrite H0, H1.
Qed.

(** ** Eigen column vectors are models of the concept *)

Lemma MatrixObj_eq (S : Type) (Rows : Z) (a b : MatrixObj S Rows) :
  proj1_sig a = proj1_sig b -> a = b.
Proof.
  destruct a as [x Hx], b as [y Hy]; simpl. intros ->.
  f_equal. apply UIP_dec, bool_dec.
Qed.

Lemma Matrix_from_inv (S : Type) (Rows : Z) (x : list S)
    (v : MatrixObj S Rows) :
  Matrix_from S Rows x = Some v -> proj1_sig v = x /\ fits Rows x = true.
Proof.
  unfold Matrix_from. destruct (bool_dec (fits Rows x) true) as [ok|no].
  - intros [= <-]. now split.
  - discriminate.
Qed.

Lemma Matrix_from_defined (S : Type) (Rows : Z) (x : list S) :
  fits Rows x = true ->
  exists v, Matrix_from S Rows x = Some v /\ proj1_sig v = x.
Proof.
  intros Hfit. unfold Matrix_from.
  destruct (bool_dec (fits Rows x) true) as [ok|no]; [|contradiction].
  now exists (exist _ x ok).
Qed.

Lemma Matrix_rows (S : Type) (Rows : Z) (v : MatrixObj S Rows) :
  Rows <> Dynamic -> rows (proj1_sig v) = Rows.
Proof.
  intros Hs. destruct v as [x Hx]; simpl.
  unfold fits in Hx. apply orb_true_iff in Hx as [Hd|Hr].
  - apply Z.eqb_eq in Hd. contradiction.
  - now apply Z.eqb_eq in Hr.
Qed.

Lemma fits_static (S : Type) (Rows : Z) (x : list S) :
  rows x = Rows -> fits Rows x = true.
Proof.
  intros <-. unfold fits. rewrite Z.eqb_refl. apply orb_true_r.
Qed.

#[export] Instance Matrix_FixedSize (S : Type) (Rows : Z) :
  0 <= Rows < 2 ^ 31 -> FixedSize (Matrix S Rows).
Proof.
  intros HR. assert (Rows <> Dynamic) by (unfold Dynamic; lia).
  constructor; simpl.
  - exact HR.
  - intros v. now apply Matrix_rows.
  - intros v. now apply Matrix_rows.
  - intros x Hx. apply Matrix_from_defined. now apply fits_static.
  - intros _ x Hx. apply Matrix_from_defined. now apply fits_static.
Qed.

(** ** Which definition is instantiated

    The builder and the util are resolved by the same three-way case
    analysis on the two row counts of the [double] instances. *)

Ltac resolve_instance H1 H2 :=
  first [apply (proj2 (Z.eqb_eq _ _)) in H1
        | apply (proj2 (Z.eqb_neq _ _)) in H1];
  first [apply (proj2 (Z.eqb_eq _ _)) in H2
        | apply (proj2 (Z.eqb_neq _ _)) in H2];
  unfold CombinedVectorBuilder.instance, CombinedVectorUtil.instance,
    instantiate;
  simpl; rewrite H1, H2; reflexivity.

Section BuilderCases.
Variables Vector1 Vector2 : Template.

Local Abbreviation r1 := (RowsAtCompileTime (Vector1 double)).
Local Abbreviation r2 := (RowsAtCompileTime (Vector2 double)).

Lemma Builder_primary :
  r1 <> 0 -> r2 <> 0 ->
  CombinedVectorBuilder.instance Vector1 Vector2
  = Selected (Primary, CombinedVectorBuilder.primary Vector1 Vector2).
Proof.
  intros H1 H2. resolve_instance H2 H1.
Qed.

Lemma Builder_Vector2_null :
  r1 <> 0 -> r2 = 0 ->
  CombinedVectorBuilder.instance Vector1 Vector2
  = Selected (Specialization 1, Vector1).
Proof.
  intros H1 H2. resolve_instance H2 H1.
Qed.

Lemma Builder_Vector1_null :
  r1 = 0 -> r2 <> 0 ->
  CombinedVectorBuilder.instance Vector1 Vector2
  = Selected (Specialization 2, Vector2).
Proof.
  intros H1 H2. resolve_instance H2 H1.
Qed.

Lemma Builder_both_null :
  r1 = 0 -> r2 = 0 ->
  CombinedVectorBuilder.instance Vector1 Vector2 = Ambiguous.
Proof.
  intros H1 H2. resolve_instance H2 H1.
Qed.

Lemma Util_primary :
  r1 <> 0 -> r2 <> 0 ->
  CombinedVectorUtil.instance Vector1 Vector2
  = Selected (Primary, CombinedVectorUtil.primary Vector1 Vector2).
Proof.
  intros H1 H2. resolve_instance H2 H1.
Qed.

Lemma Util_Vector2_null :
  r1 <> 0 -> r2 = 0 ->
  CombinedVectorUtil.instance Vector1 Vector2
  = Selected (Specialization 1,
              CombinedVectorUtil.Vector2_null Vector1 Vector2).
Proof.
  intros H1 H2. resolve_instance H2 H1.
Qed.

Lemma Util_Vector1_null :
  r1 = 0 -> r2 <> 0 ->
  CombinedVectorUtil.instance Vector1 Vector2
  = Selected (Specialization 2,
              CombinedVectorUtil.Vector1_null Vector1 Vector2).
Proof.
  intros H1 H2. resolve_instance H2 H1.
Qed.

Lemma Util_both_null :
  r1 = 0 -> r2 = 0 ->
  CombinedVectorUtil.instance Vector1 Vector2 = Ambiguous.
Proof.
  intros H1 H2. resolve_instance H2 H1.
Qed.
End BuilderCases.

(** The composed type in the three cases in which the builder can be
    instantiated. *)
Lemma Builder_type_at (Vector1 Vector2 : Template) (S : Type) :
  (RowsAtCompileTime (Vector1 double) <> 0 ->
   RowsAtCompileTime (Vector2 double) = 0 ->
   CombinedVectorBuilder.type_at Vector1 Vector2 S = Selected (Vector1 S))
  /\ (RowsAtCompileTime (Vector1 double) = 0 ->
      RowsAtCompileTime (Vector2 double) <> 0 ->
      CombinedVectorBuilder.type_at Vector1 Vector2 S = Selected (Vector2 S))
  /\ (RowsAtCompileTime (Vector1 double) <> 0 ->
      RowsAtCompileTime (Vector2 double) <> 0 ->
      CombinedVectorBuilder.type_at Vector1 Vector2 S
      = Selected (CombinedVector.type S Vector1 Vector2)).
Proof.
  unfold CombinedVectorBuilder.type_at, CombinedVectorBuilder.type.
  repeat split; intros H1 H2.
  - now rewrite Builder_Vector2_null.
  - now rewrite Builder_Vector1_null.
  - now rewrite Builder_primary.
Qed.

(** ** Both operands empty *)

(** C1, at its failing input.  [NullVector<double>] has zero rows, so the
    first rule of the claim asks [CombinedVectorBuilder<NullVector,
    NullVector>::type<S>] to be [NullVector<S>].  Both partial
    specialisations match these arguments and neither is more specialised:
    the builder has no such instance, for any scalar type. *)
Theorem Builder_NullVector_NullVector_ambiguous :
  RowsAtCompileTime (NullVector double) = 0
  /\ forall S : Type,
      CombinedVectorBuilder.type_at NullVector NullVector S = Ambiguous
      /\ CombinedVectorBuilder.type_at NullVector NullVector S
         <> Selected (NullVector S).
Proof.
  split; [reflexivity|]. intros S.
  assert (E : CombinedVectorBuilder.type_at NullVector NullVector S
              = Ambiguous) by reflexivity.
  split; [exact E|]. rewrite E. discriminate.
Qed.

(** C7, on the code.  Whenever both [Vector1<double>] and [Vector2<double>]
    have zero rows the two partial specialisations of the builder match
    together; no rule has priority over the other, the instantiation is
    ambiguous and there is no composed type (nor a value of it whose size
    could be 0).  The same holds of [CombinedVectorUtil]. *)
Theorem Builder_double_zero_ambiguous (Vector1 Vector2 : Template) :
  RowsAtCompileTime (Vector1 double) = 0 ->
  RowsAtCompileTime (Vector2 double) = 0 ->
  CombinedVectorBuilder.choice Vector1 Vector2 = Ambiguous
  /\ CombinedVectorBuilder.type Vector1 Vector2 = Ambiguous
  /\ CombinedVectorUtil.util Vector1 Vector2 = Ambiguous.
Proof.
  intros H1 H2.
  unfold CombinedVectorBuilder.choice, CombinedVectorBuilder.type,
    CombinedVectorUtil.util.
  rewrite Builder_both_null, Util_both_null by assumption.
  repeat split.
Qed.

Lemma Builder_double_zero_ambiguous_witness :
  CombinedVectorBuilder.choice NullVector NullVector = Ambiguous
  /\ CombinedVectorBuilder.type NullVector NullVector = Ambiguous
  /\ CombinedVectorUtil.util NullVector NullVector = Ambiguous.
Proof.
  apply (Builder_double_zero_ambiguous NullVector NullVector); reflexivity.
Defined.

(** ** The util follows the builder *)

(** C8.  For every pair [(Vector1, Vector2)] the definition of
    [CombinedVectorUtil] that is instantiated is the one with the same rank
    as the definition of [CombinedVectorBuilder] that is instantiated
    (primary, first or second specialisation, or neither when the
    instantiation is ambiguous), and the type on which its [first], [second]
    and [combine] work is the type the builder yields. *)
Theorem Util_mirrors_Builder (Vector1 Vector2 : Template) :
  CombinedVectorUtil.choice Vector1 Vector2
  = CombinedVectorBuilder.choice Vector1 Vector2
  /\ inst_map (CombinedVectorUtil.composed_type Vector1 Vector2)
              (CombinedVectorUtil.util Vector1 Vector2)
     = CombinedVectorBuilder.type Vector1 Vector2.
Proof.
  unfold CombinedVectorUtil.choice, CombinedVectorBuilder.choice,
    CombinedVectorUtil.util, CombinedVectorBuilder.type.
  destruct (Z.eq_dec (RowsAtCompileTime (Vector1 double)) 0) as [H1|H1],
           (Z.eq_dec (RowsAtCompileTime (Vector2 double)) 0) as [H2|H2].
  - rewrite Util_both_null, Builder_both_null by assumption. now split.
  - rewrite Util_Vector1_null, Builder_Vector1_null by assumption. now split.
  - rewrite Util_Vector2_null, Builder_Vector2_null by assumption. now split.
  - rewrite Util_primary, Builder_primary by assumption. now split.
Qed.

(** ** Row count and size of a combined vector *)

Section CombinedVectorRows.
Context (S : Type) (Vector1 Vector2 : Template).

Local Abbreviation r1 := (RowsAtCompileTime (Vector1 S)).
Local Abbreviation r2 := (RowsAtCompileTime (Vector2 S)).

Lemma CombinedVector_rows_mod :
  CombinedVector.RowsAtCompileTime S Vector1 Vector2 = (r1 + r2) mod 2 ^ 64.
Proof.
  unfold CombinedVector.RowsAtCompileTime, CombinedVector.vec1_rows,
    CombinedVector.vec2_rows, to_size_t, size_t_bits.
  now rewrite <- Zplus_mod.
Qed.

Lemma CombinedVector_rows_sum :
  0 <= r1 + r2 < 2 ^ 64 ->
  CombinedVector.RowsAtCompileTime S Vector1 Vector2 = r1 + r2.
Proof.
  intros H. rewrite CombinedVector_rows_mod. now apply Z.mod_small.
Qed.

Lemma CombinedVector_vec_rows :
  FixedSize (Vector1 S) -> FixedSize (Vector2 S) ->
  to_Index (CombinedVector.vec1_rows S Vector1) = r1
  /\ to_Index (CombinedVector.vec2_rows S Vector2) = r2.
Proof.
  intros F1 F2. unfold CombinedVector.vec1_rows, CombinedVector.vec2_rows.
  split; apply to_Index_to_size_t, rows_static.
Qed.
(** C2, for fixed-size members.  Where the class can be instantiated,
    [size()] is the sum of the members' sizes (as long as that is a
    [std::size_t]).  For two fixed-size members whose row counts sum to an
    [int], the row count of [CombinedVector] is the sum of the members' row
    counts, and [size()] is that row count. *)
Theorem CombinedVector_rows_size (c : CombinedVector.t S Vector1 Vector2) :
  (CombinedVector.well_formed S Vector1 Vector2 ->
   0 <= size_m (Vector1 S) (CombinedVector.first c)
        + size_m (Vector2 S) (CombinedVector.second c) < 2 ^ 64 ->
   size_m (CombinedVector.type S Vector1 Vector2) c
   = size_m (Vector1 S) (CombinedVector.first c)
     + size_m (Vector2 S) (CombinedVector.second c))
  /\ (FixedSize (Vector1 S) -> FixedSize (Vector2 S) ->
      r1 + r2 < 2 ^ 31 ->
      CombinedVector.well_formed S Vector1 Vector2
      /\ RowsAtCompileTime (CombinedVector.type S Vector1 Vector2) = r1 + r2
      /\ size_m (CombinedVector.type S Vector1 Vector2) c
         = size_m (Vector1 S) (CombinedVector.first c)
           + size_m (Vector2 S) (CombinedVector.second c)
      /\ size_m (CombinedVector.type S Vector1 Vector2) c
         = RowsAtCompileTime (CombinedVector.type S Vector1 Vector2)).
Proof.
  simpl. split.
  - intros _ H. unfold CombinedVector.size. now apply to_size_t_id.
  - intros F1 F2 Hint.
    pose proof (rows_static (V := Vector1 S)) as R1.
    pose proof (rows_static (V := Vector2 S)) as R2.
    pose proof (size_rows (V := Vector1 S) (CombinedVector.first c)) as E1.
    pose proof (size_rows (V := Vector2 S) (CombinedVector.second c)) as E2.
    split.
    { unfold CombinedVector.well_formed, CombinedVector.toEigen_rows. lia. }
    rewrite CombinedVector_rows_sum by lia.
    unfold CombinedVector.size.
    change (CombinedVector.vec1 c) with (CombinedVector.first c).
    change (CombinedVector.vec2 c) with (CombinedVector.second c).
    rewrite to_size_t_id by lia. repeat split. lia.
Qed.
End CombinedVectorRows.

Lemma CombinedVector_rows_size_witness :
  RowsAtCompileTime
    (CombinedVector.type double (EigenVector 3) (EigenVector 2)) = 3 + 2
  /\ size_m (CombinedVector.type double (EigenVector 3) (EigenVector 2))
       (CombinedVector.mk (vector3 d1 d2 d3) (vector2 d4 d5)) = 3 + 2.
Proof.
  destruct (CombinedVector_rows_size double (EigenVector 3) (EigenVector 2)
              (CombinedVector.mk (vector3 d1 d2 d3) (vector2 d4 d5)))
    as (_ & Hfixed).
  destruct Hfixed as (_ & Hrows & Hsize & _).
  - apply Matrix_FixedSize. lia.
  - apply Matrix_FixedSize. lia.
  - simpl. lia.
  - split; [exact Hrows | exact Hsize].
Defined.

(** C2 as written fails where a member is dynamically sized: the
    [Dynamic] of each member becomes [2 ^ 64 - 1] in [vec1_rows] and
    [vec2_rows], and the row count of the combined vector of two dynamic
    vectors is [2 ^ 64 - 2], not [-1 + -1]. *)
Lemma CombinedVector_rows_dynamic_counterexample :
  exists c : CombinedVector.t double (EigenVector Dynamic) (EigenVector Dynamic),
    c = CombinedVector.mk (vectorX [d1]) (vectorX [d2; d3])
    /\ RowsAtCompileTime
         (CombinedVector.type double (EigenVector Dynamic)
            (EigenVector Dynamic)) = 18446744073709551614
    /\ RowsAtCompileTime (EigenVector Dynamic double)
       + RowsAtCompileTime (EigenVector Dynamic double) = -2
    /\ RowsAtCompileTime
         (CombinedVector.type double (EigenVector Dynamic)
            (EigenVector Dynamic))
       <> RowsAtCompileTime (EigenVector Dynamic double)
          + RowsAtCompileTime (EigenVector Dynamic double).
Proof.
  eexists. split; [reflexivity|].
  split; [reflexivity|]. split; [reflexivity|].
  vm_compute. discriminate.
Qed.

(** ** Dense form of a combined vector *)

Section Combine.
Context (S : Type) (Vector1 Vector2 : Template).

Local Abbreviation r1 := (RowsAtCompileTime (Vector1 S)).
Local Abbreviation r2 := (RowsAtCompileTime (Vector2 S)).

(** The operands of the comma initialiser fill the matrix that the friend
    [toEigen] declares. *)
Lemma toEigen_fills (c : CombinedVector.t S Vector1 Vector2) :
  FixedSize (Vector1 S) -> FixedSize (Vector2 S) ->
  rows (CombinedVector.toEigen S Vector1 Vector2 c)
  = CombinedVector.toEigen_rows S Vector1 Vector2.
Proof.
  intros F1 F2. unfold CombinedVector.toEigen, CombinedVector.toEigen_rows.
  now rewrite rows_app, !toEigen_rows.
Qed.

(** C3.  For fixed-size [Vector1], [Vector2] with positive row counts
    (whose sum is an [int], so that [CombinedVector] can be instantiated)
    the util is the primary template, [combine(a,b)] is a [CombinedVector],
    its dense form is the dense form of [a] followed by that of [b], and
    the length of the dense form, like the row count of the type, is
    [rows(a) + rows(b)]. *)
Theorem combine_toEigen :
  0 < RowsAtCompileTime (Vector1 double) ->
  0 < RowsAtCompileTime (Vector2 double) ->
  FixedSize (Vector1 S) -> FixedSize (Vector2 S) ->
  r1 + r2 < 2 ^ 31 ->
  CombinedVectorUtil.util Vector1 Vector2
  = Selected (CombinedVectorUtil.primary Vector1 Vector2)
  /\ CombinedVector.well_formed S Vector1 Vector2
  /\ CombinedVectorBuilder.type_at Vector1 Vector2 S
     = Selected (CombinedVector.type S Vector1 Vector2)
  /\ RowsAtCompileTime (CombinedVector.type S Vector1 Vector2) = r1 + r2
  /\ forall (a : Obj (Vector1 S)) (b : Obj (Vector2 S)),
      toEigen (CombinedVector.type S Vector1 Vector2)
        (CombinedVectorUtil.combine
           (projT2 (CombinedVectorUtil.primary Vector1 Vector2)) S a b)
      = toEigen (Vector1 S) a ++ toEigen (Vector2 S) b
      /\ rows (toEigen (CombinedVector.type S Vector1 Vector2)
                 (CombinedVectorUtil.combine
                    (projT2 (CombinedVectorUtil.primary Vector1 Vector2))
                    S a b))
         = r1 + r2.
Proof.
  intros P1 P2 F1 F2 Hint.
  assert (N1 : RowsAtCompileTime (Vector1 double) <> 0) by lia.
  assert (N2 : RowsAtCompileTime (Vector2 double) <> 0) by lia.
  split.
  { unfold CombinedVectorUtil.util. now rewrite Util_primary. }
  split.
  { unfold CombinedVector.well_formed, CombinedVector.toEigen_rows.
    pose proof (rows_static (V := Vector1 S)).
    pose proof (rows_static (V := Vector2 S)). lia. }
  split.
  { now apply Builder_type_at. }
  split.
  { simpl. apply CombinedVector_rows_sum.
    pose proof (rows_static (V := Vector1 S)).
    pose proof (rows_static (V := Vector2 S)). lia. }
  intros a b. split; [reflexivity|].
  simpl. unfold CombinedVector.toEigen; simpl.
  now rewrite rows_app, !toEigen_rows.
Qed.
End Combine.

Lemma combine_toEigen_witness :
  CombinedVectorUtil.util (EigenVector 3) (EigenVector 2)
  = Selected (CombinedVectorUtil.primary (EigenVector 3) (EigenVector 2))
  /\ toEigen (CombinedVector.type double (EigenVector 3) (EigenVector 2))
       (CombinedVectorUtil.combine
          (projT2 (CombinedVectorUtil.primary (EigenVector 3) (EigenVector 2)))
          double (vector3 d1 d2 d3) (vector2 d4 d5))
     = [d1; d2; d3; d4; d5]
  /\ rows (toEigen (CombinedVector.type double (EigenVector 3) (EigenVector 2))
             (CombinedVectorUtil.combine
                (projT2 (CombinedVectorUtil.primary (EigenVector 3)
                           (EigenVector 2)))
                double (vector3 d1 d2 d3) (vector2 d4 d5)))
     = 3 + 2.
Proof.
  destruct (combine_toEigen double (EigenVector 3) (EigenVector 2))
    as (Hutil & _ & _ & _ & Hdense).
  - simpl. lia.
  - simpl. lia.
  - apply Matrix_FixedSize. lia.
  - apply Matrix_FixedSize. lia.
  - simpl. lia.
  - destruct (Hdense (vector3 d1 d2 d3) (vector2 d4 d5)) as (Hcat & Hlen).
    split; [exact Hutil|]. split; [exact Hcat | exact Hlen].
Defined.

(** ** Taking a composed value apart and putting it together again *)

Lemma EigenVector_null_convertible (Rows : Z) :
  null_convertible (EigenVector Rows).
Proof.
  intros H S. simpl in H. subst Rows. now exists (nullVec S).
Qed.





(** ** The null vector is an identity of composition *)

(** C5.  Let [V] have a positive row count.  With [NullVector] as second
    operand the composed type is [V<S>], [combine(v, nullVec)] is [v],
    [first] of it is [v] and [second] of it is an empty [NullVector<S>],
    of size 0.  With [NullVector] as first operand the composed type is
    [V<S>], [combine(nullVec, v)] is [v], [second] of it is [v] and
    [first] of it is an empty [NullVector<S>], of size 0. *)
Theorem NullVector_identity (V : Template) (S : Type)
    (v : Obj (V S)) (n : Obj (NullVector S)) :
  0 < RowsAtCompileTime (V double) ->
  (CombinedVectorBuilder.type_at V NullVector S = Selected (V S)
   /\ CombinedVectorUtil.util V NullVector
      = Selected (CombinedVectorUtil.Vector2_null V NullVector)
   /\ CombinedVectorUtil.combine
        (projT2 (CombinedVectorUtil.Vector2_null V NullVector)) S v n = v
   /\ CombinedVectorUtil.first
        (projT2 (CombinedVectorUtil.Vector2_null V NullVector)) S
        (CombinedVectorUtil.combine
           (projT2 (CombinedVectorUtil.Vector2_null V NullVector)) S v n)
      = Some v
   /\ exists z : Obj (NullVector S),
       CombinedVectorUtil.second
         (projT2 (CombinedVectorUtil.Vector2_null V NullVector)) S
         (CombinedVectorUtil.combine
            (projT2 (CombinedVectorUtil.Vector2_null V NullVector)) S v n)
       = Some z
       /\ toEigen (NullVector S) z = []
       /\ size_m (NullVector S) z = 0
       /\ size (NullVector S) z = Ok 0)
  /\ (CombinedVectorBuilder.type_at NullVector V S = Selected (V S)
      /\ CombinedVectorUtil.util NullVector V
         = Selected (CombinedVectorUtil.Vector1_null NullVector V)
      /\ CombinedVectorUtil.combine
           (projT2 (CombinedVectorUtil.Vector1_null NullVector V)) S n v = v
      /\ CombinedVectorUtil.second
           (projT2 (CombinedVectorUtil.Vector1_null NullVector V)) S
           (CombinedVectorUtil.combine
              (projT2 (CombinedVectorUtil.Vector1_null NullVector V)) S n v)
         = Some v
      /\ exists z : Obj (NullVector S),
          CombinedVectorUtil.first
            (projT2 (CombinedVectorUtil.Vector1_null NullVector V)) S
            (CombinedVectorUtil.combine
               (projT2 (CombinedVectorUtil.Vector1_null NullVector V)) S n v)
          = Some z
          /\ toEigen (NullVector S) z = []
          /\ size_m (NullVector S) z = 0
          /\ size (NullVector S) z = Ok 0).
Proof.
  intros Hpos.
  assert (Hnz : RowsAtCompileTime (V double) <> 0) by lia.
  assert (Hz : RowsAtCompileTime (NullVector double) = 0) by reflexivity.
  split.
  - split; [now apply Builder_type_at|].
    split; [unfold CombinedVectorUtil.util; now rewrite Util_Vector2_null|].
    split; [reflexivity|]. split; [reflexivity|].
    exists (nullVec S). repeat split.
  - split; [now apply Builder_type_at|].
    split; [unfold CombinedVectorUtil.util; now rewrite Util_Vector1_null|].
    split; [reflexivity|]. split; [reflexivity|].
    exists (nullVec S). repeat split.
Qed.

Lemma NullVector_identity_witness :
  CombinedVectorBuilder.type_at NullVector (EigenVector 2) double
  = Selected (EigenVector 2 double)
  /\ CombinedVectorUtil.combine
       (projT2 (CombinedVectorUtil.Vector1_null NullVector (EigenVector 2)))
       double (nullVec double) (vector2 d7 d8)
     = vector2 d7 d8
  /\ CombinedVectorUtil.combine
       (projT2 (CombinedVectorUtil.Vector2_null (EigenVector 2) NullVector))
       double (vector2 d7 d8) (nullVec double)
     = vector2 d7 d8.
Proof.
  destruct (NullVector_identity (EigenVector 2) double (vector2 d7 d8)
              (nullVec double))
    as ((_ & _ & Hright & _) & (Htype & _ & Hleft & _)).
  - simpl. lia.
  - split; [exact Htype|]. split; [exact Hleft | exact Hright].
Defined.

(** ** Construction from one dense expression *)

Section Split.
Context (S : Type) (Vector1 Vector2 : Template).

Local Abbreviation r1 := (RowsAtCompileTime (Vector1 S)).
Local Abbreviation r2 := (RowsAtCompileTime (Vector2 S)).

Lemma split_blocks (x : list S) :
  FixedSize (Vector1 S) -> FixedSize (Vector2 S) ->
  rows x = r1 + r2 ->
  topRows x (to_Index (CombinedVector.vec1_rows S Vector1))
  = Some (firstn (Z.to_nat r1) x)
  /\ bottomRows x (to_Index (CombinedVector.vec2_rows S Vector2))
     = Some (skipn (Z.to_nat r1) x)
  /\ rows (firstn (Z.to_nat r1) x) = r1
  /\ rows (skipn (Z.to_nat r1) x) = r2.
Proof.
  intros F1 F2 Hx.
  destruct (CombinedVector_vec_rows S Vector1 Vector2 F1 F2) as [E1 E2].
  pose proof (rows_static (V := Vector1 S)) as R1.
  pose proof (rows_static (V := Vector2 S)) as R2.
  rewrite E1, E2.
  rewrite topRows_defined, bottomRows_defined by lia.
  replace (rows x - r2) with r1 by lia.
  repeat split; unfold rows in *.
  - rewrite length_firstn. lia.
  - rewrite length_skipn. lia.
Qed.

Lemma from_MatrixBase_defined (x : list S) :
  FixedSize (Vector1 S) -> FixedSize (Vector2 S) ->
  rows x = r1 + r2 ->
  exists c : CombinedVector.t S Vector1 Vector2,
    CombinedVector.from_MatrixBase S Vector1 Vector2 x = Some c
    /\ from_eigen (Vector1 S) (firstn (Z.to_nat r1) x)
       = Some (CombinedVector.first c)
    /\ from_eigen (Vector2 S) (skipn (Z.to_nat r1) x)
       = Some (CombinedVector.second c)
    /\ toEigen (Vector1 S) (CombinedVector.first c)
       = firstn (Z.to_nat r1) x
    /\ toEigen (Vector2 S) (CombinedVector.second c)
       = skipn (Z.to_nat r1) x.
Proof.
  intros F1 F2 Hx.
  destruct (split_blocks x F1 F2 Hx) as (Htop & Hbot & L1 & L2).
  destruct (from_eigen_defined (V := Vector1 S) _ L1) as (a & Ha & Da).
  destruct (from_eigen_defined (V := Vector2 S) _ L2) as (b & Hb & Db).
  exists (CombinedVector.mk a b).
  unfold CombinedVector.from_MatrixBase.
  rewrite Htop, Ha, Hbot, Hb. simpl. repeat split; assumption.
Qed.

Lemma assign_defined (c0 : CombinedVector.t S Vector1 Vector2)
    (x : list S) :
  FixedSize (Vector1 S) -> FixedSize (Vector2 S) ->
  rows x = r1 + r2 ->
  exists c : CombinedVector.t S Vector1 Vector2,
    CombinedVector.assign S Vector1 Vector2 c0 x = Some c
    /\ assign_eigen (Vector1 S) (CombinedVector.first c0)
         (firstn (Z.to_nat r1) x)
       = Some (CombinedVector.first c)
    /\ assign_eigen (Vector2 S) (CombinedVector.second c0)
         (skipn (Z.to_nat r1) x)
       = Some (CombinedVector.second c)
    /\ toEigen (Vector1 S) (CombinedVector.first c)
       = firstn (Z.to_nat r1) x
    /\ toEigen (Vector2 S) (CombinedVector.second c)
       = skipn (Z.to_nat r1) x.
Proof.
  intros F1 F2 Hx.
  destruct (split_blocks x F1 F2 Hx) as (Htop & Hbot & L1 & L2).
  destruct (assign_eigen_defined (V := Vector1 S)
              (CombinedVector.first c0) _ L1) as (a & Ha & Da).
  destruct (assign_eigen_defined (V := Vector2 S)
              (CombinedVector.second c0) _ L2) as (b & Hb & Db).
  exists (CombinedVector.mk a b).
  unfold CombinedVector.assign.
  change (CombinedVector.vec1 c0) with (CombinedVector.first c0).
  change (CombinedVector.vec2 c0) with (CombinedVector.second c0).
  rewrite Htop, Ha, Hbot, Hb. simpl. repeat split; assumption.
Qed.

Lemma toEigen_members (c : CombinedVector.t S Vector1 Vector2)
    (x : list S) (n : nat) :
  toEigen (Vector1 S) (CombinedVector.first c) = firstn n x ->
  toEigen (Vector2 S) (CombinedVector.second c) = skipn n x ->
  CombinedVector.toEigen S Vector1 Vector2 c = x.
Proof.
  intros H1 H2. unfold CombinedVector.toEigen.
  change (CombinedVector.vec1 c) with (CombinedVector.first c).
  change (CombinedVector.vec2 c) with (CombinedVector.second c).
  rewrite H1, H2. apply firstn_skipn.
Qed.

(** A combined vector of two fixed-size vectors is a fixed-size model of
    the concept, as long as its row count is an [int]. *)
Lemma CombinedVector_FixedSize :
  FixedSize (Vector1 S) -> FixedSize (Vector2 S) ->
  r1 + r2 < 2 ^ 31 ->
  FixedSize (CombinedVector.type S Vector1 Vector2).
Proof.
  intros F1 F2 Hint.
  pose proof (rows_static (V := Vector1 S)) as R1.
  pose proof (rows_static (V := Vector2 S)) as R2.
  assert (Hrows : CombinedVector.RowsAtCompileTime S Vector1 Vector2
                  = r1 + r2) by (apply CombinedVector_rows_sum; lia).
  constructor; simpl; rewrite Hrows.
  - lia.
  - intros c. unfold CombinedVector.toEigen.
    now rewrite rows_app, !toEigen_rows.
  - intros c. unfold CombinedVector.size.
    rewrite !size_rows. apply to_size_t_id. lia.
  - intros x Hx.
    destruct (from_MatrixBase_defined x F1 F2 Hx)
      as (c & Hc & _ & _ & D1 & D2).
    exists c. split; [exact Hc | now apply toEigen_members with (n := Z.to_nat r1)].
  - intros c0 x Hx.
    destruct (assign_defined c0 x F1 F2 Hx) as (c & Hc & _ & _ & D1 & D2).
    exists c. split; [exact Hc | now apply toEigen_members with (n := Z.to_nat r1)].
Qed.

End Split.


(** ** size() *)

Lemma size_static (S : Type) (VecType : Vector S) (vec : Obj VecType) :
  0 <= RowsAtCompileTime VecType < 2 ^ 31 ->
  size VecType vec = Ok (RowsAtCompileTime VecType).
Proof.
  intros H. unfold size, internal.SizeDispatch_eval.
  rewrite equals_minus_one_static by assumption.
  f_equal. apply to_size_t_id. lia.
Qed.




(** ** getRandomVector() *)

Lemma rows_Random (rnd : nat -> double) (Rows : Z) :
  0 <= Rows -> rows (Random rnd Rows) = Rows.
Proof.
  intros H. unfold rows, Random. rewrite length_map, length_seq. lia.
Qed.

(** C10, as the code has it.  When [VecType<double>::RowsAtCompileTime]
    is negative the [static_assert] of [getRandomVector] fails, and only
    then; a row count that is not negative but does not fit an [int] is
    ill-formed at line 53.  For a fixed-size model of the concept the
    function returns a vector, built from the [RowsAtCompileTime] random
    coefficients, whose dense form has exactly [RowsAtCompileTime] rows
    and whose [size] is [RowsAtCompileTime]. *)
Theorem getRandomVector_fixed_size (VecType : Template)
    (rnd : nat -> double) :
  (RowsAtCompileTime (VecType double) < 0 ->
   getRandomVector VecType rnd
   = static_assert_failed "still need to handle dynamic case")
  /\ (0 <= RowsAtCompileTime (VecType double) < 2 ^ 31 ->
      getRandomVector VecType rnd
      = Ok (from_eigen (VecType double)
              (Random rnd (RowsAtCompileTime (VecType double)))))
  /\ (2 ^ 31 <= RowsAtCompileTime (VecType double) ->
      getRandomVector VecType rnd = ill_formed)
  /\ (FixedSize (VecType double) ->
      exists v : Obj (VecType double),
        getRandomVector VecType rnd = Ok (Some v)
        /\ toEigen (VecType double) v
           = Random rnd (RowsAtCompileTime (VecType double))
        /\ rows (toEigen (VecType double) v)
           = RowsAtCompileTime (VecType double)
        /\ size (VecType double) v
           = Ok (RowsAtCompileTime (VecType double))).
Proof.
  unfold getRandomVector.
  destruct (Z.geb_spec (RowsAtCompileTime (VecType double)) 0) as [G|G],
           (Z.ltb_spec (RowsAtCompileTime (VecType double)) (2 ^ 31))
             as [L|L];
    (split; [intros H; try reflexivity; lia|]);
    (split; [intros H; try reflexivity; lia|]);
    (split; [intros H; try reflexivity; lia|]);
    intros F; pose proof (rows_static (V := VecType double)) as R;
    try lia.
  destruct (from_eigen_defined (V := VecType double)
              (Random rnd (RowsAtCompileTime (VecType double))))
    as (v & Hv & Dv).
  { apply rows_Random. lia. }
  exists v. rewrite Hv. repeat split.
  - exact Dv.
  - apply toEigen_rows.
  - apply size_static. lia.
Qed.

Lemma getRandomVector_fixed_size_witness :
  getRandomVector (EigenVector Dynamic) (fun _ => d1)
  = static_assert_failed "still need to handle dynamic case"
  /\ exists v : Obj (EigenVector 3 double),
      getRandomVector (EigenVector 3) (fun _ => d1) = Ok (Some v)
      /\ toEigen (EigenVector 3 double) v = [d1; d1; d1]
      /\ size (EigenVector 3 double) v = Ok 3.
Proof.
  split.
  - destruct (getRandomVector_fixed_size (EigenVector Dynamic) (fun _ => d1))
      as (Hdyn & _).
    apply Hdyn. simpl. unfold Dynamic. lia.
  - destruct (getRandomVector_fixed_size (EigenVector 3) (fun _ => d1))
      as (_ & _ & _ & Hfix).
    destruct Hfix as (v & Hv & Dv & _ & Sv).
    + apply Matrix_FixedSize. lia.
    + exists v. repeat split; assumption.
Defined.

(** C10 as written fails on a class of the header itself: a row count
    that is not negative does not make a vector type fixed-size.  The
    combined vector of a dynamic vector and a 3-row vector has, by the
    wrap-around of [vec1_rows], the row count 2; it passes the
    [static_assert] and line 53, but its constructor asks for the top
    [-1] rows of the 2 random coefficients and fails: no vector is
    returned. *)
Lemma getRandomVector_dynamic_member_counterexample :
  RowsAtCompileTime
    (CombinedVectorBuilder.primary (EigenVector Dynamic) (EigenVector 3)
       double) = 2
  /\ getRandomVector
       (CombinedVectorBuilder.primary (EigenVector Dynamic) (EigenVector 3))
       (fun _ => d1) = Ok None
  /\ ~ exists v,
        getRandomVector
          (CombinedVectorBuilder.primary (EigenVector Dynamic)
             (EigenVector 3))
          (fun _ => d1) = Ok (Some v).
Proof.
  assert (E : getRandomVector
                (CombinedVectorBuilder.primary (EigenVector Dynamic)
                   (EigenVector 3))
                (fun _ => d1) = Ok None) by reflexivity.
  split; [reflexivity|]. split; [exact E|].
  intros (v & Hv). rewrite E in Hv. discriminate Hv.
Qed.

(** * Further properties of the header *)

(** ** Coordinate names *)

Lemma to_string_inj (n m : Z) :
  0 <= n -> 0 <= m -> to_string n = to_string m -> n = m.
Proof.
  intros Hn Hm E. unfold to_string in E.
  assert (E' : Some (N.to_uint (Z.to_N n)) = Some (N.to_uint (Z.to_N m)))
    by (rewrite <- !NilEmpty.usu; now rewrite E).
  injection E' as E'. apply Unsigned.to_uint_inj in E'.
  apply (f_equal Z.of_N) in E'. now rewrite !Z2N.id in E'.
Qed.

(** X1.  The default coordinate names tell the coordinates apart: two
    indices that fit an [unsigned int] and get the same name are the same
    index, whatever the two vectors are. *)
Theorem getCoordinateName_injective (S S' : Type) (V : Vector S)
    (V' : Vector S') (vec : Obj V) (vec' : Obj V') (i j : Z) :
  0 <= i < 2 ^ 32 -> 0 <= j < 2 ^ 32 ->
  getCoordinateName V vec i = getCoordinateName V' vec' j ->
  i = j.
Proof.
  intros Hi Hj E. unfold getCoordinateName, to_unsigned_int in E.
  rewrite !Z.mod_small in E by assumption.
  simpl in E. injection E as E.
  apply to_string_inj; [lia | lia | exact E].
Qed.

Lemma getCoordinateName_injective_witness :
  getCoordinateName (EigenVector 3 double) (vector3 d1 d2 d3) 12 = "x12"
  /\ getCoordinateName (EigenVector 3 double) (vector3 d1 d2 d3) 12
     = getCoordinateName (EigenVector 2 double) (vector2 d4 d5) (6 + 6)
  /\ 12 = 6 + 6.
Proof.
  split; [reflexivity|]. split; [reflexivity|].
  apply (getCoordinateName_injective double double (EigenVector 3 double)
           (EigenVector 2 double) (vector3 d1 d2 d3) (vector2 d4 d5)
           12 (6 + 6)); [lia | lia | reflexivity].
Defined.

(** ** More on the constructors of CombinedVector *)

Lemma firstn_exact (A : Type) (l1 l2 : list A) :
  firstn (List.length l1) (l1 ++ l2) = l1.
Proof.
  induction l1 as [|a l1 IH]; simpl; [now destruct l2 | now rewrite IH].
Qed.

Lemma skipn_exact (A : Type) (l1 l2 : list A) :
  skipn (List.length l1) (l1 ++ l2) = l2.
Proof. induction l1 as [|a l1 IH]; simpl; [reflexivity | exact IH]. Qed.

Lemma rows_to_nat (A : Type) (l : list A) : Z.to_nat (rows l) = List.length l.
Proof. unfold rows. apply Nat2Z.id. Qed.

Section Constructors.
Context (S : Type) (Vector1 Vector2 : Template).

Local Abbreviation r1 := (RowsAtCompileTime (Vector1 S)).
Local Abbreviation r2 := (RowsAtCompileTime (Vector2 S)).

Lemma from_eigen_holds (V : Vector S) (x : list S) (v : Obj V) :
  FixedSize V -> rows x = RowsAtCompileTime V ->
  from_eigen V x = Some v -> toEigen V v = x.
Proof.
  intros F Hx Hv. destruct (from_eigen_defined (V := V) x Hx) as (w & Hw & Dw).
  rewrite Hv in Hw. now injection Hw as ->.
Qed.

Lemma assign_eigen_holds (V : Vector S) (v0 : Obj V) (x : list S)
    (v : Obj V) :
  FixedSize V -> rows x = RowsAtCompileTime V ->
  assign_eigen V v0 x = Some v -> toEigen V v = x.
Proof.
  intros F Hx Hv.
  destruct (assign_eigen_defined (V := V) v0 x Hx) as (w & Hw & Dw).
  rewrite Hv in Hw. now injection Hw as ->.
Qed.

(** X2.  For fixed-size members whose row counts sum to an [int], the
    constructor from two dense
    expressions, one per member, builds the same object as the constructor
    from the one expression that stacks them; its dense form is the
    stack. *)
Theorem from_MatrixBase2_stacked (x1 x2 : list S) :
  FixedSize (Vector1 S) -> FixedSize (Vector2 S) ->
  r1 + r2 < 2 ^ 31 ->
  rows x1 = r1 -> rows x2 = r2 ->
  exists c : CombinedVector.t S Vector1 Vector2,
    CombinedVector.from_MatrixBase2 S Vector1 Vector2 x1 x2 = Some c
    /\ CombinedVector.from_MatrixBase S Vector1 Vector2 (x1 ++ x2) = Some c
    /\ CombinedVector.toEigen S Vector1 Vector2 c = x1 ++ x2.
Proof.
  intros F1 F2 Hint H1 H2.
  assert (Hx : rows (x1 ++ x2) = r1 + r2) by (rewrite rows_app; lia).
  destruct (from_MatrixBase_defined S Vector1 Vector2 (x1 ++ x2) F1 F2 Hx)
    as (c & Hc & B1 & B2 & D1 & D2).
  rewrite <- H1, rows_to_nat, firstn_exact in B1, D1.
  rewrite <- H1, rows_to_nat, skipn_exact in B2, D2.
  exists c. split; [|split; [exact Hc|]].
  - unfold CombinedVector.from_MatrixBase2. rewrite B1, B2.
    now destruct c.
  - unfold CombinedVector.toEigen.
    change (CombinedVector.vec1 c) with (CombinedVector.first c).
    change (CombinedVector.vec2 c) with (CombinedVector.second c).
    now rewrite D1, D2.
Qed.

(** X3.  The constructor from one dense expression does not check the
    total number of rows.  For fixed-size members whose row counts sum to
    an [int] it succeeds exactly when
    [x] has at least as many rows as each member; the members then hold
    the top [rows(Vector1)] and the bottom [rows(Vector2)] rows of [x],
    which overlap or leave rows out unless [x] has
    [rows(Vector1) + rows(Vector2)] rows: only then is [x] the dense form
    of the object. *)
Theorem from_MatrixBase_unchecked (x : list S) :
  FixedSize (Vector1 S) -> FixedSize (Vector2 S) ->
  r1 + r2 < 2 ^ 31 ->
  ((exists c, CombinedVector.from_MatrixBase S Vector1 Vector2 x = Some c)
   <-> r1 <= rows x /\ r2 <= rows x)
  /\ forall c : CombinedVector.t S Vector1 Vector2,
      CombinedVector.from_MatrixBase S Vector1 Vector2 x = Some c ->
      toEigen (Vector1 S) (CombinedVector.first c)
      = firstn (Z.to_nat r1) x
      /\ toEigen (Vector2 S) (CombinedVector.second c)
         = skipn (Z.to_nat (rows x - r2)) x
      /\ (CombinedVector.toEigen S Vector1 Vector2 c = x
          <-> rows x = r1 + r2).
Proof.
  intros F1 F2 Hint.
  destruct (CombinedVector_vec_rows S Vector1 Vector2 F1 F2) as [E1 E2].
  pose proof (rows_static (V := Vector1 S)) as R1.
  pose proof (rows_static (V := Vector2 S)) as R2.
  unfold CombinedVector.from_MatrixBase. rewrite E1, E2.
  split; [split|].
  - intros (c & Hc).
    destruct (topRows x r1) as [x1|] eqn:T; [|discriminate].
    destruct (from_eigen (Vector1 S) x1) as [a|]; [|discriminate].
    destruct (bottomRows x r2) as [x2|] eqn:B; [|discriminate].
    unfold topRows in T. unfold bottomRows in B.
    destruct ((0 <=? r1) && (r1 <=? rows x)) eqn:C1; [|discriminate].
    destruct ((0 <=? r2) && (r2 <=? rows x)) eqn:C2; [|discriminate].
    apply andb_true_iff in C1 as [_ C1], C2 as [_ C2].
    apply Z.leb_le in C1, C2. now split.
  - intros [H1 H2].
    rewrite topRows_defined, bottomRows_defined by lia.
    destruct (from_eigen_defined (V := Vector1 S) (firstn (Z.to_nat r1) x))
      as (a & Ha & _).
    { unfold rows in *. rewrite length_firstn. lia. }
    destruct (from_eigen_defined (V := Vector2 S)
                (skipn (Z.to_nat (rows x - r2)) x)) as (b & Hb & _).
    { unfold rows in *. rewrite length_skipn. lia. }
    rewrite Ha, Hb. now exists (CombinedVector.mk a b).
  - intros c Hc.
    destruct (topRows x r1) as [x1|] eqn:T; [|discriminate].
    destruct (from_eigen (Vector1 S) x1) as [a|] eqn:Ha; [|discriminate].
    destruct (bottomRows x r2) as [x2|] eqn:B; [|discriminate].
    destruct (from_eigen (Vector2 S) x2) as [b|] eqn:Hb; [|discriminate].
    injection Hc as <-. simpl.
    apply topRows_rows in T as [-> L1].
    apply bottomRows_rows in B as [-> L2].
    apply from_eigen_holds in Ha; [|assumption..].
    apply from_eigen_holds in Hb; [|assumption..].
    split; [exact Ha|]. split; [exact Hb|].
    unfold CombinedVector.toEigen; simpl. rewrite Ha, Hb. split.
    + intros E. rewrite <- E at 1. rewrite rows_app. lia.
    + intros E. replace (rows x - r2) with r1 by lia. apply firstn_skipn.
Qed.

(** X4.  With a dynamically sized member the constructor from one dense
    expression, and the assignment of one, fail on every expression: the
    row count [-1] of the member reaches Eigen as a block of [-1] rows. *)
Theorem from_MatrixBase_dynamic_member (x : list S)
    (c0 : CombinedVector.t S Vector1 Vector2) :
  r1 = Dynamic \/ r2 = Dynamic ->
  CombinedVector.from_MatrixBase S Vector1 Vector2 x = None
  /\ CombinedVector.assign S Vector1 Vector2 c0 x = None.
Proof.
  intros H.
  unfold CombinedVector.from_MatrixBase, CombinedVector.assign,
    CombinedVector.vec1_rows, CombinedVector.vec2_rows.
  destruct H as [H|H]; rewrite H, to_Index_to_size_t_Dynamic.
  - split; reflexivity.
  - split.
    + destruct (topRows x _); [|reflexivity].
      destruct (from_eigen _ _); reflexivity.
    + destruct (topRows x _); [|reflexivity].
      destruct (assign_eigen _ _ _); reflexivity.
Qed.
End Constructors.

Lemma from_MatrixBase2_stacked_witness :
  exists c : CombinedVector.t double (EigenVector 3) (EigenVector 2),
    CombinedVector.from_MatrixBase2 double (EigenVector 3) (EigenVector 2)
      [d1; d2; d3] [d4; d5] = Some c
    /\ CombinedVector.from_MatrixBase double (EigenVector 3) (EigenVector 2)
         [d1; d2; d3; d4; d5] = Some c
    /\ CombinedVector.toEigen double (EigenVector 3) (EigenVector 2) c
       = [d1; d2; d3; d4; d5].
Proof.
  apply (from_MatrixBase2_stacked double (EigenVector 3) (EigenVector 2)
           [d1; d2; d3] [d4; d5]).
  - apply Matrix_FixedSize. lia.
  - apply Matrix_FixedSize. lia.
  - simpl. lia.
  - reflexivity.
  - reflexivity.
Defined.

Lemma from_MatrixBase_unchecked_witness :
  exists c : CombinedVector.t double (EigenVector 3) (EigenVector 2),
    CombinedVector.from_MatrixBase double (EigenVector 3) (EigenVector 2)
      [d1; d2; d3; d4; d5; d7] = Some c
    /\ toEigen (EigenVector 3 double) (CombinedVector.first c) = [d1; d2; d3]
    /\ toEigen (EigenVector 2 double) (CombinedVector.second c) = [d5; d7].
Proof.
  destruct (from_MatrixBase_unchecked double (EigenVector 3) (EigenVector 2)
              [d1; d2; d3; d4; d5; d7]) as ((_ & Hdef) & Hval).
  - apply Matrix_FixedSize. lia.
  - apply Matrix_FixedSize. lia.
  - simpl. lia.
  - destruct Hdef as (c & Hc).
    + vm_compute. split; discriminate.
    + exists c. split; [exact Hc|].
      destruct (Hval c Hc) as (H1 & H2 & _). split; [exact H1 | exact H2].
Defined.

Lemma from_MatrixBase_dynamic_member_witness :
  CombinedVector.from_MatrixBase double (EigenVector Dynamic) (EigenVector 3)
    [d1; d2; d3; d4; d5] = None
  /\ CombinedVector.assign double (EigenVector Dynamic) (EigenVector 3)
       (CombinedVector.mk (vectorX [d1; d2]) (vector3 d3 d4 d5))
       [d1; d2; d3; d4; d5] = None.
Proof.
  apply (from_MatrixBase_dynamic_member double (EigenVector Dynamic)
           (EigenVector 3)).
  left. reflexivity.
Defined.

(** ** Nesting *)

Section Nesting.
Context (S : Type) (Vector1 Vector2 Vector3 : Template).

Local Abbreviation V12 := (CombinedVectorBuilder.primary Vector1 Vector2).
Local Abbreviation V23 := (CombinedVectorBuilder.primary Vector2 Vector3).

Local Abbreviation r1 := (RowsAtCompileTime (Vector1 S)).
Local Abbreviation r2 := (RowsAtCompileTime (Vector2 S)).
Local Abbreviation r3 := (RowsAtCompileTime (Vector3 S)).

(** X5.  Combining is associative.  For three fixed-size vector types
    whose row counts sum to an [int], a combined vector of a combined
    vector and a third vector, and a combined vector of the first vector
    and the combination of the other two, have the same row count, the same
    [size()] and the same dense form. *)
Theorem CombinedVector_assoc (a : Obj (Vector1 S)) (b : Obj (Vector2 S))
    (c : Obj (Vector3 S)) :
  FixedSize (Vector1 S) -> FixedSize (Vector2 S) -> FixedSize (Vector3 S) ->
  r1 + r2 + r3 < 2 ^ 31 ->
  RowsAtCompileTime (CombinedVector.type S V12 Vector3)
  = RowsAtCompileTime (CombinedVector.type S Vector1 V23)
  /\ RowsAtCompileTime (CombinedVector.type S V12 Vector3) = r1 + r2 + r3
  /\ size_m (CombinedVector.type S V12 Vector3)
       (CombinedVector.mk (CombinedVector.mk a b : Obj (V12 S)) c)
     = size_m (CombinedVector.type S Vector1 V23)
         (CombinedVector.mk a (CombinedVector.mk b c : Obj (V23 S)))
  /\ toEigen (CombinedVector.type S V12 Vector3)
       (CombinedVector.mk (CombinedVector.mk a b : Obj (V12 S)) c)
     = toEigen (CombinedVector.type S Vector1 V23)
         (CombinedVector.mk a (CombinedVector.mk b c : Obj (V23 S))).
Proof.
  intros F1 F2 F3 Hint.
  pose proof (rows_static (V := Vector1 S)) as R1.
  pose proof (rows_static (V := Vector2 S)) as R2.
  pose proof (rows_static (V := Vector3 S)) as R3.
  assert (E : RowsAtCompileTime (CombinedVector.type S V12 Vector3)
              = RowsAtCompileTime (CombinedVector.type S Vector1 V23)).
  { simpl. rewrite !CombinedVector_rows_mod. simpl.
    rewrite !CombinedVector_rows_mod.
    rewrite Zplus_mod_idemp_l, Zplus_mod_idemp_r. f_equal. lia. }
  split; [exact E|]. split; [|split].
  - simpl. rewrite CombinedVector_rows_mod. simpl.
    rewrite CombinedVector_rows_mod, Zplus_mod_idemp_l.
    apply Z.mod_small. lia.
  - simpl. unfold CombinedVector.size; simpl.
    unfold CombinedVector.size, to_size_t, size_t_bits; simpl.
    rewrite Zplus_mod_idemp_l, Zplus_mod_idemp_r. f_equal. lia.
  - simpl. unfold CombinedVector.toEigen; simpl.
    unfold CombinedVector.toEigen; simpl. now rewrite app_assoc.
Qed.
End Nesting.

Lemma CombinedVector_assoc_witness :
  toEigen
    (CombinedVector.type double
       (CombinedVectorBuilder.primary (EigenVector 3) (EigenVector 2))
       (EigenVector 2))
    (CombinedVector.mk
       (CombinedVector.mk (vector3 d1 d2 d3) (vector2 d4 d5)
        : Obj (CombinedVectorBuilder.primary (EigenVector 3) (EigenVector 2)
                 double))
       (vector2 d7 d8))
  = [d1; d2; d3; d4; d5; d7; d8]
  /\ toEigen
       (CombinedVector.type double (EigenVector 3)
          (CombinedVectorBuilder.primary (EigenVector 2) (EigenVector 2)))
       (CombinedVector.mk (vector3 d1 d2 d3)
          (CombinedVector.mk (vector2 d4 d5) (vector2 d7 d8)
           : Obj (CombinedVectorBuilder.primary (EigenVector 2)
                    (EigenVector 2) double)))
     = [d1; d2; d3; d4; d5; d7; d8].
Proof.
  destruct (CombinedVector_assoc double (EigenVector 3) (EigenVector 2)
              (EigenVector 2) (vector3 d1 d2 d3) (vector2 d4 d5)
              (vector2 d7 d8)) as (_ & _ & _ & H).
  - apply Matrix_FixedSize. lia.
  - apply Matrix_FixedSize. lia.
  - apply Matrix_FixedSize. lia.
  - simpl. lia.
  - split; [reflexivity|]. rewrite <- H. reflexivity.
Defined.

(** ** The builder and the util on fixed-size vector types *)

Lemma FixedSize_empty (S : Type) (V : Vector S) (v : Obj V) :
  FixedSize V -> RowsAtCompileTime V = 0 -> toEigen V v = [].
Proof.
  intros F H0. pose proof (toEigen_rows (V := V) v) as L.
  rewrite H0 in L. unfold rows in L.
  destruct (toEigen V v); [reflexivity | discriminate].
Qed.

Section FixedSizeTemplates.
Variables Vector1 Vector2 : Template.
Hypothesis fixed1 : forall S : Type, FixedSize (Vector1 S).
Hypothesis fixed2 : forall S : Type, FixedSize (Vector2 S).
Hypothesis same1 : forall S : Type,
    RowsAtCompileTime (Vector1 S) = RowsAtCompileTime (Vector1 double).
Hypothesis same2 : forall S : Type,
    RowsAtCompileTime (Vector2 S) = RowsAtCompileTime (Vector2 double).
Hypothesis not_both_null :
  RowsAtCompileTime (Vector1 double) <> 0
  \/ RowsAtCompileTime (Vector2 double) <> 0.

(** X6.  The builder stays inside the fixed-size vector types.  Let
    [Vector1] and [Vector2] be fixed-size models of the concept for every
    scalar, with row counts that do not depend on the scalar, not both
    zero and with a sum that fits an [int].  Then the builder has an
    instance, and whichever of the three definitions it comes from, the
    composed type is again such a model and has
    [rows(Vector1) + rows(Vector2)] rows: it can be given to the builder
    again. *)
Theorem Builder_type_FixedSize :
  RowsAtCompileTime (Vector1 double) + RowsAtCompileTime (Vector2 double)
  < 2 ^ 31 ->
  exists composed : Template,
    CombinedVectorBuilder.type Vector1 Vector2 = Selected composed
    /\ forall S : Type,
        FixedSize (composed S)
        /\ RowsAtCompileTime (composed S)
           = RowsAtCompileTime (Vector1 S) + RowsAtCompileTime (Vector2 S)
        /\ RowsAtCompileTime (composed S)
           = RowsAtCompileTime (composed double).
Proof.
  intros Hint. unfold CombinedVectorBuilder.type.
  destruct (Z.eq_dec (RowsAtCompileTime (Vector1 double)) 0) as [H1|H1],
           (Z.eq_dec (RowsAtCompileTime (Vector2 double)) 0) as [H2|H2].
  - destruct not_both_null; contradiction.
  - exists Vector2. rewrite Builder_Vector1_null by assumption.
    split; [reflexivity|]. intros S.
    split; [apply fixed2|]. rewrite (same1 S), H1. split; [lia | apply same2].
  - exists Vector1. rewrite Builder_Vector2_null by assumption.
    split; [reflexivity|]. intros S.
    split; [apply fixed1|]. rewrite (same2 S), H2. split; [lia | apply same1].
  - exists (CombinedVectorBuilder.primary Vector1 Vector2).
    rewrite Builder_primary by assumption.
    split; [reflexivity|]. intros S.
    pose proof (rows_static (V := Vector1 S)) as R1.
    pose proof (rows_static (V := Vector2 S)) as R2.
    pose proof (rows_static (V := Vector1 double)) as R1d.
    pose proof (rows_static (V := Vector2 double)) as R2d.
    split; [|split].
    + apply CombinedVector_FixedSize; [apply fixed1 | apply fixed2|].
      rewrite same1, same2. exact Hint.
    + simpl. apply CombinedVector_rows_sum. lia.
    + simpl. rewrite !CombinedVector_rows_sum by lia.
      now rewrite same1, same2.
Qed.

(** X7.  Under the same conditions (the sum of the row counts being an
    [int]) the util has an instance, and in each
    of its three definitions [combine] stacks and [first] and [second]
    undo it: the dense form of [combine(a,b)] is the dense form of [a]
    followed by that of [b], and [first] and [second] of [combine(a,b)]
    are defined and have the dense forms of [a] and of [b]. *)
Theorem Util_combine_stacks :
  RowsAtCompileTime (Vector1 double) + RowsAtCompileTime (Vector2 double)
  < 2 ^ 31 ->
  exists u : CombinedVectorUtil.t Vector1 Vector2,
    CombinedVectorUtil.util Vector1 Vector2 = Selected u
    /\ forall (S : Type) (a : Obj (Vector1 S)) (b : Obj (Vector2 S)),
        toEigen (projT1 u S) (CombinedVectorUtil.combine (projT2 u) S a b)
        = toEigen (Vector1 S) a ++ toEigen (Vector2 S) b
        /\ exists (a' : Obj (Vector1 S)) (b' : Obj (Vector2 S)),
            CombinedVectorUtil.first (projT2 u) S
              (CombinedVectorUtil.combine (projT2 u) S a b) = Some a'
            /\ CombinedVectorUtil.second (projT2 u) S
                 (CombinedVectorUtil.combine (projT2 u) S a b) = Some b'
            /\ toEigen (Vector1 S) a' = toEigen (Vector1 S) a
            /\ toEigen (Vector2 S) b' = toEigen (Vector2 S) b.
Proof.
  intros Hint. unfold CombinedVectorUtil.util.
  destruct (Z.eq_dec (RowsAtCompileTime (Vector1 double)) 0) as [H1|H1],
           (Z.eq_dec (RowsAtCompileTime (Vector2 double)) 0) as [H2|H2].
  - destruct not_both_null; contradiction.
  - exists (CombinedVectorUtil.Vector1_null Vector1 Vector2).
    rewrite Util_Vector1_null by assumption.
    split; [reflexivity|]. intros S a b; simpl.
    assert (Z1 : RowsAtCompileTime (Vector1 S) = 0) by now rewrite same1.
    rewrite (FixedSize_empty S (Vector1 S) a (fixed1 S) Z1).
    split; [reflexivity|].
    destruct (from_eigen_defined (V := Vector1 S) []) as (a' & Ha & Da).
    { now rewrite Z1. }
    exists a', b. now rewrite Ha, Da.
  - exists (CombinedVectorUtil.Vector2_null Vector1 Vector2).
    rewrite Util_Vector2_null by assumption.
    split; [reflexivity|]. intros S a b; simpl.
    assert (Z2 : RowsAtCompileTime (Vector2 S) = 0) by now rewrite same2.
    rewrite (FixedSize_empty S (Vector2 S) b (fixed2 S) Z2), app_nil_r.
    split; [reflexivity|].
    destruct (from_eigen_defined (V := Vector2 S) []) as (b' & Hb & Db).
    { now rewrite Z2. }
    exists a, b'. now rewrite Hb, Db.
  - exists (CombinedVectorUtil.primary Vector1 Vector2).
    rewrite Util_primary by assumption.
    split; [reflexivity|]. intros S a b; simpl.
    split; [reflexivity|]. now exists a, b.
Qed.
End FixedSizeTemplates.

Lemma Builder_type_FixedSize_witness :
  exists composed : Template,
    CombinedVectorBuilder.type NullVector (EigenVector 2) = Selected composed
    /\ forall S : Type,
        FixedSize (composed S)
        /\ RowsAtCompileTime (composed S)
           = RowsAtCompileTime (NullVector S)
             + RowsAtCompileTime (EigenVector 2 S)
        /\ RowsAtCompileTime (composed S)
           = RowsAtCompileTime (composed double).
Proof.
  apply (Builder_type_FixedSize NullVector (EigenVector 2)).
  - intros S. apply Matrix_FixedSize. lia.
  - intros S. apply Matrix_FixedSize. lia.
  - intros S. reflexivity.
  - intros S. reflexivity.
  - right. simpl. lia.
  - simpl. lia.
Defined.

Lemma Util_combine_stacks_witness :
  exists u : CombinedVectorUtil.t (EigenVector 3) NullVector,
    CombinedVectorUtil.util (EigenVector 3) NullVector = Selected u
    /\ forall (S : Type) (a : Obj (EigenVector 3 S)) (b : Obj (NullVector S)),
        toEigen (projT1 u S) (CombinedVectorUtil.combine (projT2 u) S a b)
        = toEigen (EigenVector 3 S) a ++ toEigen (NullVector S) b
        /\ exists (a' : Obj (EigenVector 3 S)) (b' : Obj (NullVector S)),
            CombinedVectorUtil.first (projT2 u) S
              (CombinedVectorUtil.combine (projT2 u) S a b) = Some a'
            /\ CombinedVectorUtil.second (projT2 u) S
                 (CombinedVectorUtil.combine (projT2 u) S a b) = Some b'
            /\ toEigen (EigenVector 3 S) a' = toEigen (EigenVector 3 S) a
            /\ toEigen (NullVector S) b' = toEigen (NullVector S) b.
Proof.
  apply (Util_combine_stacks (EigenVector 3) NullVector).
  - intros S. apply Matrix_FixedSize. lia.
  - intros S. apply Matrix_FixedSize. lia.
  - intros S. reflexivity.
  - intros S. reflexivity.
  - left. simpl. lia.
  - simpl. lia.
Defined.

(** ** From the dense form back to the vector *)

Lemma Matrix_roundtrip (S : Type) (Rows : Z) (v : MatrixObj S Rows) :
  from_eigen (Matrix S Rows) (toEigen (Matrix S Rows) v) = Some v.
Proof.
  simpl. unfold Matrix_toEigen.
  destruct (Matrix_from_defined S Rows (proj1_sig v) (proj2_sig v))
    as (w & Hw & Dw).
  rewrite Hw. f_equal. now apply MatrixObj_eq.
Qed.

Section Roundtrip.
Context (S : Type) (Vector1 Vector2 : Template).

Local Abbreviation r1 := (RowsAtCompileTime (Vector1 S)).
Local Abbreviation r2 := (RowsAtCompileTime (Vector2 S)).

(** X8.  Round trip through the dense form.  If each of two fixed-size
    member types, with row counts that sum to an [int], gives back a vector when constructed from that vector's
    dense form (as Eigen column vectors do), so does their
    [CombinedVector]: constructing from [toEigen(c)] yields [c]. *)
Theorem CombinedVector_roundtrip (c : CombinedVector.t S Vector1 Vector2) :
  FixedSize (Vector1 S) -> FixedSize (Vector2 S) ->
  r1 + r2 < 2 ^ 31 ->
  (forall a : Obj (Vector1 S),
      from_eigen (Vector1 S) (toEigen (Vector1 S) a) = Some a) ->
  (forall b : Obj (Vector2 S),
      from_eigen (Vector2 S) (toEigen (Vector2 S) b) = Some b) ->
  from_eigen (CombinedVector.type S Vector1 Vector2)
    (toEigen (CombinedVector.type S Vector1 Vector2) c) = Some c.
Proof.
  intros F1 F2 Hint T1 T2. destruct c as [a b]; simpl.
  unfold CombinedVector.toEigen; simpl.
  pose proof (toEigen_rows (V := Vector1 S) a) as L1.
  pose proof (toEigen_rows (V := Vector2 S) b) as L2.
  assert (Hx : rows (toEigen (Vector1 S) a ++ toEigen (Vector2 S) b)
               = r1 + r2) by (rewrite rows_app; lia).
  destruct (split_blocks S Vector1 Vector2 _ F1 F2 Hx) as (Htop & Hbot & _).
  unfold CombinedVector.from_MatrixBase. rewrite Htop, Hbot.
  rewrite <- L1, rows_to_nat, firstn_exact, skipn_exact.
  now rewrite T1, T2.
Qed.

(** X9.  The three ways to ask a combined vector of fixed-size members for
    its dimension agree: the generic [size(c)], the member [c.size()] and
    the number of rows of [toEigen(c)] all are
    [rows(Vector1) + rows(Vector2)]. *)
Theorem CombinedVector_size_agree (c : CombinedVector.t S Vector1 Vector2) :
  FixedSize (Vector1 S) -> FixedSize (Vector2 S) ->
  r1 + r2 < 2 ^ 31 ->
  size (CombinedVector.type S Vector1 Vector2) c = Ok (r1 + r2)
  /\ CombinedVector.size S Vector1 Vector2 c = r1 + r2
  /\ rows (CombinedVector.toEigen S Vector1 Vector2 c) = r1 + r2.
Proof.
  intros F1 F2 Hint.
  pose proof (CombinedVector_FixedSize S Vector1 Vector2 F1 F2 Hint) as F.
  pose proof (rows_static (V := Vector1 S)) as R1.
  pose proof (rows_static (V := Vector2 S)) as R2.
  assert (Hrows : RowsAtCompileTime (CombinedVector.type S Vector1 Vector2)
                  = r1 + r2) by (apply CombinedVector_rows_sum; lia).
  rewrite <- Hrows. split; [|split].
  - apply size_static. rewrite Hrows. lia.
  - apply (size_rows (V := CombinedVector.type S Vector1 Vector2)).
  - apply (toEigen_rows (V := CombinedVector.type S Vector1 Vector2)).
Qed.

(** X10.  With a dynamically sized member the generic [size(c)] does not
    look at the object.  The row count of the class is then computed from
    [2 ^ 64 - 1] for that member; unless the other member has zero rows it
    does not compare equal to [-1], and [size(c)] returns it: one less than
    the row count of a fixed-size other member, [2 ^ 64 - 2] when both are
    dynamic. *)
Theorem size_dynamic_member (c : CombinedVector.t S Vector1 Vector2) :
  (r1 = Dynamic -> 1 <= r2 < 2 ^ 31 ->
   size (CombinedVector.type S Vector1 Vector2) c = Ok (r2 - 1))
  /\ (1 <= r1 < 2 ^ 31 -> r2 = Dynamic ->
      size (CombinedVector.type S Vector1 Vector2) c = Ok (r1 - 1))
  /\ (r1 = Dynamic -> r2 = Dynamic ->
      size (CombinedVector.type S Vector1 Vector2) c = Ok (2 ^ 64 - 2)).
Proof.
  assert (Hrows : RowsAtCompileTime (CombinedVector.type S Vector1 Vector2)
                  = (r1 + r2) mod 2 ^ 64) by apply CombinedVector_rows_mod.
  split; [|split].
  - intros H1 H2. rewrite H1 in Hrows.
    replace ((Dynamic + r2) mod 2 ^ 64) with (r2 - 1) in Hrows.
    + rewrite <- Hrows. apply size_static. rewrite Hrows. lia.
    + unfold Dynamic. symmetry.
      replace (-1 + r2) with (r2 - 1) by lia. apply Z.mod_small. lia.
  - intros H1 H2. rewrite H2 in Hrows.
    replace ((r1 + Dynamic) mod 2 ^ 64) with (r1 - 1) in Hrows.
    + rewrite <- Hrows. apply size_static. rewrite Hrows. lia.
    + unfold Dynamic. symmetry.
      replace (r1 + -1) with (r1 - 1) by lia. apply Z.mod_small. lia.
  - intros H1 H2. rewrite H1, H2 in Hrows.
    change ((Dynamic + Dynamic) mod 2 ^ 64) with (2 ^ 64 - 2) in Hrows.
    unfold size, internal.SizeDispatch_eval. rewrite Hrows. reflexivity.
Qed.
End Roundtrip.

Lemma CombinedVector_roundtrip_witness :
  from_eigen (CombinedVector.type double (EigenVector 3) (EigenVector 2))
    (toEigen (CombinedVector.type double (EigenVector 3) (EigenVector 2))
       (CombinedVector.mk (vector3 d1 d2 d3) (vector2 d4 d5)))
  = Some (CombinedVector.mk (vector3 d1 d2 d3) (vector2 d4 d5)).
Proof.
  apply (CombinedVector_roundtrip double (EigenVector 3) (EigenVector 2)).
  - apply Matrix_FixedSize. lia.
  - apply Matrix_FixedSize. lia.
  - simpl. lia.
  - intros a. apply Matrix_roundtrip.
  - intros b. apply Matrix_roundtrip.
Defined.

Lemma CombinedVector_size_agree_witness :
  size (CombinedVector.type double (EigenVector 3) (EigenVector 2))
    (CombinedVector.mk (vector3 d1 d2 d3) (vector2 d4 d5)) = Ok (3 + 2)
  /\ CombinedVector.size double (EigenVector 3) (EigenVector 2)
       (CombinedVector.mk (vector3 d1 d2 d3) (vector2 d4 d5)) = 3 + 2
  /\ rows (CombinedVector.toEigen double (EigenVector 3) (EigenVector 2)
             (CombinedVector.mk (vector3 d1 d2 d3) (vector2 d4 d5))) = 3 + 2.
Proof.
  apply (CombinedVector_size_agree double (EigenVector 3) (EigenVector 2)).
  - apply Matrix_FixedSize. lia.
  - apply Matrix_FixedSize. lia.
  - simpl. lia.
Defined.

Lemma size_dynamic_member_witness :
  size (CombinedVector.type double (EigenVector Dynamic) (EigenVector 3))
    (CombinedVector.mk (vectorX [d1; d2]) (vector3 d3 d4 d5)) = Ok (3 - 1)
  /\ CombinedVector.size double (EigenVector Dynamic) (EigenVector 3)
       (CombinedVector.mk (vectorX [d1; d2]) (vector3 d3 d4 d5)) = 5.
Proof.
  split; [|reflexivity].
  destruct (size_dynamic_member double (EigenVector Dynamic) (EigenVector 3)
              (CombinedVector.mk (vectorX [d1; d2]) (vector3 d3 d4 d5)))
    as (H & _).
  apply H; [reflexivity | simpl; lia].
Defined.

(** ** Random combined vectors *)

Lemma Random_app (rnd : nat -> double) (n m : Z) :
  0 <= n -> 0 <= m ->
  Random rnd (n + m)
  = Random rnd n ++ map rnd (seq (Z.to_nat n) (Z.to_nat m)).
Proof.
  intros Hn Hm. unfold Random.
  now rewrite Z2Nat.inj_add, seq_app, map_app by assumption.
Qed.

(** X11.  [getRandomVector] on the combined vector of two fixed-size
    vector types succeeds and deals the random coefficients out in order:
    the first member gets the first [rows(Vector1)] of them, the second
    member the next [rows(Vector2)]. *)
Theorem getRandomVector_combined (Vector1 Vector2 : Template)
    (rnd : nat -> double) :
  FixedSize (Vector1 double) -> FixedSize (Vector2 double) ->
  RowsAtCompileTime (Vector1 double) + RowsAtCompileTime (Vector2 double)
  < 2 ^ 31 ->
  exists c : CombinedVector.t double Vector1 Vector2,
    getRandomVector (CombinedVectorBuilder.primary Vector1 Vector2) rnd
    = Ok (Some c)
    /\ toEigen (Vector1 double) (CombinedVector.first c)
       = map rnd (seq 0 (Z.to_nat (RowsAtCompileTime (Vector1 double))))
    /\ toEigen (Vector2 double) (CombinedVector.second c)
       = map rnd (seq (Z.to_nat (RowsAtCompileTime (Vector1 double)))
                    (Z.to_nat (RowsAtCompileTime (Vector2 double)))).
Proof.
  intros F1 F2 Hint.
  pose proof (rows_static (V := Vector1 double)) as R1.
  pose proof (rows_static (V := Vector2 double)) as R2.
  assert (Hrows : RowsAtCompileTime
                    (CombinedVectorBuilder.primary Vector1 Vector2 double)
                  = RowsAtCompileTime (Vector1 double)
                    + RowsAtCompileTime (Vector2 double))
    by (apply CombinedVector_rows_sum; lia).
  unfold getRandomVector. rewrite Hrows.
  destruct (Z.geb_spec (RowsAtCompileTime (Vector1 double)
                        + RowsAtCompileTime (Vector2 double)) 0); [|lia].
  destruct (Z.ltb_spec (RowsAtCompileTime (Vector1 double)
                        + RowsAtCompileTime (Vector2 double)) (2 ^ 31));
    [|lia].
  destruct (from_MatrixBase_defined double Vector1 Vector2
              (Random rnd (RowsAtCompileTime (Vector1 double)
                           + RowsAtCompileTime (Vector2 double))) F1 F2)
    as (c & Hc & _ & _ & D1 & D2).
  { apply rows_Random. lia. }
  exists c. split; [simpl; now rewrite Hc|].
  rewrite Random_app in D1, D2 by lia.
  assert (L : Z.to_nat (RowsAtCompileTime (Vector1 double))
              = List.length (Random rnd (RowsAtCompileTime (Vector1 double)))).
  { rewrite <- rows_to_nat, rows_Random by lia. reflexivity. }
  rewrite L in D1 at 1. rewrite L in D2 at 1.
  rewrite firstn_exact in D1. rewrite skipn_exact in D2.
  split; [exact D1 | exact D2].
Qed.

Lemma getRandomVector_combined_witness :
  exists c : CombinedVector.t double (EigenVector 3) (EigenVector 2),
    getRandomVector
      (CombinedVectorBuilder.primary (EigenVector 3) (EigenVector 2))
      (fun i => binary64 (Z.of_nat i)) = Ok (Some c)
    /\ toEigen (EigenVector 3 double) (CombinedVector.first c)
       = [binary64 0; binary64 1; binary64 2]
    /\ toEigen (EigenVector 2 double) (CombinedVector.second c)
       = [binary64 3; binary64 4].
Proof.
  apply (getRandomVector_combined (EigenVector 3) (EigenVector 2)
           (fun i => binary64 (Z.of_nat i))).
  - apply Matrix_FixedSize. lia.
  - apply Matrix_FixedSize. lia.
  - simpl. lia.
Defined.

(** ** The tags of FunctionalForm *)

Lemma converts_depth (t u : FunctionalForm.tag) :
  FunctionalForm.converts t u ->
  (FunctionalForm.depth u <= FunctionalForm.depth t)%nat.
Proof.
  induction 1 as [t | d b b' Hb Hc IH]; [apply Nat.le_refl|].
  destruct d; try discriminate Hb; injection Hb as <-;
    (eapply Nat.le_trans; [exact IH|]); cbv; repeat constructor.
Qed.

Lemma depth_converts (t u : FunctionalForm.tag) :
  (FunctionalForm.depth u <= FunctionalForm.depth t)%nat ->
  FunctionalForm.converts t u.
Proof.
  intros H.
  destruct t, u; cbv in H;
    try (exfalso; lia);
    repeat first [apply FunctionalForm.converts_same
                 | eapply FunctionalForm.converts_base; [reflexivity|]].
Qed.

(** X12.  The tags form a chain under derived-to-base conversion,
    [Linear], [Affine], [Polynomial], [Arbitrary]: a tag converts to
    another exactly when it has at least as many base classes; of two tags
    one converts to the other, and both do only if they are the same; every
    tag converts to [Arbitrary] and [Linear] converts to every tag. *)
Theorem FunctionalForm_chain (t u : FunctionalForm.tag) :
  (FunctionalForm.converts t u
   <-> (FunctionalForm.depth u <= FunctionalForm.depth t)%nat)
  /\ (FunctionalForm.converts t u \/ FunctionalForm.converts u t)
  /\ (FunctionalForm.converts t u -> FunctionalForm.converts u t -> t = u)
  /\ FunctionalForm.converts t FunctionalForm.Arbitrary
  /\ FunctionalForm.converts FunctionalForm.Linear t
  /\ (FunctionalForm.converts FunctionalForm.Arbitrary t ->
      t = FunctionalForm.Arbitrary).
Proof.
  split; [split; [apply converts_depth | apply depth_converts]|].
  split.
  { destruct (Nat.le_ge_cases (FunctionalForm.depth u)
                (FunctionalForm.depth t));
      [left | right]; now apply depth_converts. }
  split.
  { intros H1 H2. apply converts_depth in H1, H2.
    destruct t, u; cbv in H1, H2; try reflexivity; exfalso; lia. }
  split; [apply depth_converts; cbv; lia|].
  split; [apply depth_converts; destruct t; cbv; lia|].
  intros H. apply converts_depth in H. destruct t; cbv in H;
    try reflexivity; exfalso; lia.
Qed.

Lemma FunctionalForm_chain_witness :
  FunctionalForm.converts FunctionalForm.Linear FunctionalForm.Polynomial
  /\ ~ FunctionalForm.converts FunctionalForm.Polynomial
         FunctionalForm.Linear.
Proof.
  destruct (FunctionalForm_chain FunctionalForm.Linear
              FunctionalForm.Polynomial) as ((_ & Hle) & _ & Hanti & _).
  assert (H : FunctionalForm.converts FunctionalForm.Linear
                FunctionalForm.Polynomial) by (apply Hle; cbv; lia).
  split; [exact H|]. intros H'. discriminate (Hanti H H').
Defined.

End Drake.
